(** * Portfolio valuation of the investment dashboard

    A shallow embedding of the valuation code of the four Streamlit pages
    ([dashboard_general.py], [pages/dashboard_usa.py], [pages/dashboard_hk.py],
    [pages/dashboard_detail.py]) and the properties of its arithmetic.

    Conventions of the embedding.
    - Python and numpy floats are exact rationals ([Qc], canonical fractions
      with Leibniz equality).  The rounding error of float arithmetic, [nan]
      and [inf] are outside the model; rounding to two decimals
      ([round(2)], [.2f]) is the rounding of the exact number.
    - A division whose divisor is zero has no value in the model: it is the
      failure [ZeroDivisionError].  (Python numbers raise exactly that; numpy
      scalars yield [inf] or [nan] with a [RuntimeWarning].)
    - Exceptions, [st.warning] and [st.error] are effects: a computation is a
      pair of the messages it showed and of its outcome, a value or a raised
      exception.
    - A pandas [Series] is the list of its values, a [DataFrame] is a finite
      map from column labels to columns.  Charts and layout are not
      modelled; of the formats of numbers only [.2f] is. *)

From Stdlib Require Import QArith Qcanon Lqa.
From Stdlib Require Import Ascii Decimal DecimalString DecimalN.
From stdpp Require Import base option list strings gmap numbers.

Local Open Scope string_scope.
Local Open Scope list_scope.
Local Open Scope Qc_scope.

(** ** Numbers *)

(** A float literal of the source, e.g. [float 0.128]. *)
Definition float (q : Q) : Qc := Q2Qc q.

(** [float(n)] of an [int]. *)
Definition Z2Qc (z : Z) : Qc := float (inject_Z z).

(** [np.rint]: the nearest integer, a tie going to the even one. *)
Definition rint (q : Qc) : Z :=
  let n := Qnum q in
  let d := Z.pos (Qden q) in
  let floor := (n / d)%Z in
  match (2 * (n mod d) ?= d)%Z with
  | Lt => floor
  | Gt => (floor + 1)%Z
  | Eq => if Z.even floor then floor else (floor + 1)%Z
  end.


(** ** Exceptions, messages and the effect monad *)

Inductive exn_class :=
  | KeyError | IndexError | AttributeError | ZeroDivisionError
  | TypeError | ValueError.

Global Instance exn_class_eq_dec : EqDecision exn_class.
Proof. solve_decision. Defined.

(** An exception: its class and [str(e)]. *)
Record exn := Exn { exn_cls : exn_class; exn_str : string }.

Inductive message :=
  | st_warning (text : string)
  | st_error (text : string).

Inductive result (A : Type) :=
  | Ok (a : A)
  | Raise (e : exn).
Global Arguments Ok {A} a.
Global Arguments Raise {A} e.

(** The messages shown so far, oldest first, and the outcome. *)
Definition M (A : Type) : Type := list message * result A.

Definition raise {A} (e : exn) : M A := ([], Raise e).
Definition show (m : message) : M unit := ([m], Ok tt).

Global Instance M_ret : MRet M := λ A a, ([], Ok a).
Global Instance M_bind : MBind M := λ A B k c,
  match c with
  | (log, Ok a) => let '(log', r) := k a in (log ++ log', r)
  | (log, Raise e) => (log, Raise e)
  end.

(** The same messages, the value mapped. *)
Global Instance M_fmap : FMap M := λ A B f c,
  match c with
  | (log, Ok a) => (log, Ok (f a))
  | (log, Raise e) => (log, Raise e)
  end.

(** [try: c except classes as e: h e].  An exception whose class is not
    listed passes through; the messages shown before the raise stay shown. *)
Definition try_except {A} (c : M A) (classes : list exn_class) (h : exn → M A) : M A :=
  match c with
  | (log, Ok a) => (log, Ok a)
  | (log, Raise e) =>
      if bool_decide (exn_cls e ∈ classes)
      then let '(log', r) := h e in (log ++ log', r)
      else (log, Raise e)
  end.

(** [try: c except Exception as e: h e]. *)
Definition try_except_Exception {A} (c : M A) (h : exn → M A) : M A :=
  match c with
  | (log, Ok a) => (log, Ok a)
  | (log, Raise e) => let '(log', r) := h e in (log ++ log', r)
  end.

Definition messages {A} (c : M A) : list message := c.1.
Definition outcome {A} (c : M A) : result A := c.2.

(** ** Python and pandas primitives *)

(** [repr] of a string and of a list of strings. *)
Definition repr (s : string) : string := "'" +:+ s +:+ "'".

Fixpoint join (sep : string) (l : list string) : string :=
  match l with
  | [] => ""
  | [s] => s
  | s :: rest => s +:+ sep +:+ join sep rest
  end.

Definition repr_list (l : list string) : string :=
  "[" +:+ join ", " (repr <$> l) +:+ "]".

(** One decimal digit in front of a decimal numeral. *)
Definition digit (n : N) (rest : uint) : uint :=
  match n with
  | 0 => D0 rest | 1 => D1 rest | 2 => D2 rest | 3 => D3 rest | 4 => D4 rest
  | 5 => D5 rest | 6 => D6 rest | 7 => D7 rest | 8 => D8 rest | _ => D9 rest
  end%N.

(** [f"{x:.2f}"]: the nearest number with two decimals, a tie going to the
    even one, printed with its sign, also when the digits are all zero. *)
Definition format_2f (x : Qc) : string :=
  let negative := bool_decide (x < 0) in
  let cents := Z.to_N (rint ((if negative then - x else x) * float 100)) in
  (if negative then "-" else "")
  +:+ NilEmpty.string_of_uint (N.to_uint (cents / 100))
  +:+ "."
  +:+ NilEmpty.string_of_uint
        (digit (cents mod 100 / 10) (digit (cents mod 10) Nil)).

Fixpoint in_chars (a : Ascii.ascii) (chars : string) : bool :=
  match chars with
  | String c rest => Ascii.eqb a c || in_chars a rest
  | EmptyString => false
  end.

Fixpoint lstrip (s chars : string) : string :=
  match s with
  | String a rest => if in_chars a chars then lstrip rest chars else s
  | EmptyString => EmptyString
  end.

Fixpoint rstrip (s chars : string) : string :=
  match s with
  | String a rest =>
      match rstrip rest chars with
      | EmptyString =>
          if in_chars a chars then EmptyString else String a EmptyString
      | kept => String a kept
      end
  | EmptyString => EmptyString
  end.

(** [s.strip(chars)]. *)
Definition strip (s chars : string) : string := rstrip (lstrip s chars) chars.

(** The text up to the first point, and the text after it. *)
Fixpoint split_point (s : string) : string * string :=
  match s with
  | String a rest =>
      if Ascii.eqb a "."%char then (EmptyString, rest)
      else let (integer, fraction) := split_point rest in
           (String a integer, fraction)
  | EmptyString => (EmptyString, EmptyString)
  end.

Definition digits_value (s : string) : option N :=
  N.of_uint <$> NilEmpty.uint_of_string s.

(** [float(s)] on a decimal numeral: an optional sign, digits, an optional
    point and digits, with a digit somewhere.  The other forms [float]
    accepts (exponents, [inf], [nan], underscores, blanks around) are not
    modelled and are refused here like any other text. *)
Definition py_float (s : string) : M Qc :=
  let invalid :=
    raise (Exn ValueError ("could not convert string to float: " +:+ repr s)) in
  let (negative, unsigned) :=
    match s with
    | String "-"%char rest => (true, rest)
    | String "+"%char rest => (false, rest)
    | _ => (false, s)
    end in
  let (integer, fraction) := split_point unsigned in
  match digits_value integer, digits_value fraction with
  | Some i, Some f =>
      if bool_decide (integer = "" ∧ fraction = "") then invalid
      else
        let v := Z2Qc (Z.of_N i)
                 + Z2Qc (Z.of_N f) / Z2Qc (10 ^ Z.of_nat (String.length fraction)) in
        mret (if negative then - v else v)
  | _, _ => invalid
  end.

(** [d[k]] on a dict. *)
Definition dict_get {V} (d : gmap string V) (k : string) : M V :=
  match d !! k with
  | Some v => mret v
  | None => raise (Exn KeyError (repr k))
  end.

(** [a / b] on numbers. *)
Definition div (a b : Qc) : M Qc :=
  if bool_decide (b = 0) then raise (Exn ZeroDivisionError "division by zero")
  else mret (a / b).

(** [sum(l)] on numbers: starts from 0 and adds from the left. *)
Definition py_sum (l : list Qc) : Qc := foldl Qcplus 0 l.

(** [sum(f(x) for x in l)]: the generator is consumed from the left and the
    first exception ends the sum. *)
Fixpoint sum_gen_from {X} (acc : Qc) (f : X → M Qc) (l : list X) : M Qc :=
  match l with
  | [] => mret acc
  | x :: rest => v ← f x; sum_gen_from (acc + v) f rest
  end.
Definition sum_gen {X} (f : X → M Qc) (l : list X) : M Qc := sum_gen_from 0 f l.

Abbreviation Series := (list Qc).
Abbreviation DataFrame := (gmap string (list Qc)).

(** [pd.DataFrame()]. *)
Definition empty_frame : DataFrame := ∅.

(** [df.empty]: no column or no row.  The columns of a frame share one
    index, so this is: every column is empty. *)
Definition df_empty (df : DataFrame) : bool :=
  bool_decide (map_Forall (λ _ (s : list Qc), s = []) df).

(** [label in df] and [label in df.columns]. *)
Definition df_contains (df : DataFrame) (label : string) : bool :=
  bool_decide (is_Some (df !! label)).

(** [df[label]]. *)
Definition df_getitem (df : DataFrame) (label : string) : M Series :=
  dict_get df label.

Definition out_of_bounds : exn :=
  Exn IndexError "single positional indexer is out-of-bounds".

(** [s.iloc[0]] and [s.iloc[-1]]. *)
Definition iloc_first (s : Series) : M Qc :=
  match head s with Some v => mret v | None => raise out_of_bounds end.
Definition iloc_last (s : Series) : M Qc :=
  match list.last s with Some v => mret v | None => raise out_of_bounds end.

(** A value of the overview computation: a number, or the empty [Series]
    that is left in [current_price] when a price column has no row (the only
    [Series] that reaches the arithmetic, see [current_price_of]).  Arithmetic
    with an empty [Series] broadcasts to an empty [Series]; its [.sum()] is 0. *)
Inductive val :=
  | Num (q : Qc)
  | EmptySeries.

Global Instance val_eq_dec : EqDecision val.
Proof. solve_decision. Defined.

Definition lift2 (f : Qc → Qc → Qc) (a b : val) : val :=
  match a, b with
  | Num x, Num y => Num (f x y)
  | _, _ => EmptySeries
  end.
Definition vadd : val → val → val := lift2 Qcplus.
Definition vsub : val → val → val := lift2 Qcminus.
Definition vmul : val → val → val := lift2 Qcmult.
Definition vdiv (a b : val) : M val :=
  match a, b with
  | Num x, Num y => q ← div x y; mret (Num q)
  | _, _ => mret EmptySeries
  end.

(** [v.sum() if isinstance(v, pd.Series) else v]. *)
Definition sum_if_series (v : val) : Qc :=
  match v with Num q => q | EmptySeries => 0 end.

(** [for x in l: s = body(s, x)]. *)
Fixpoint for_loop {S X} (body : S → X → M S) (s : S) (l : list X) : M S :=
  match l with
  | [] => mret s
  | x :: rest => s' ← body s x; for_loop body s' rest
  end.

(** [rows = []; for x in l: rows.append(f(x))]. *)
Definition for_append {X R} (f : X → M R) (l : list X) : M (list R) :=
  for_loop (λ rows x, row ← f x; mret (rows ++ [row])) [] l.

(** What [yf.download] hands back: a frame, or an exception. *)
Definition fetched (r : result DataFrame) : M DataFrame := ([], r).

(** ** [dashboard_general.py]: the overview page *)

Module dashboard_general.


(** The portfolio data written in the page. *)
Module data.
Definition portfolio_hk : list string := ["1211.HK"; "0700.HK"].
Definition portfolio_usa : list string :=
  ["BABA"; "ACN"; "PDD"; "BIDU"; "NKE"; "DAVA"; "VOO"; "QQQ"; "SPYG"].
Definition shares_owned_hk : gmap string Qc :=
  {[ "1211.HK" := float 6.91; "0700.HK" := float 0.98 ]}.
Definition shares_owned_usa : gmap string Qc :=
  {[ "BABA" := float 3.6717; "ACN" := float 0.44484; "PDD" := float 2.11386;
     "BIDU" := float 0.45074; "NKE" := float 1.09433; "DAVA" := float 3.20205;
     "VOO" := float 2; "QQQ" := float 1.1556; "SPYG" := float 1 ]}.
Definition purchase_prices_hk : gmap string Qc :=
  {[ "1211.HK" := float 226; "0700.HK" := float 399.60 ]}.
Definition purchase_prices_usa : gmap string Qc :=
  {[ "BABA" := float 81.74; "ACN" := float 292.24; "PDD" := float 141.92;
     "BIDU" := float 110.93; "NKE" := float 91.38; "DAVA" := float 31.23;
     "VOO" := float 471.11; "QQQ" := float 444.92; "SPYG" := float 72.43 ]}.
Definition cash_available : Qc := float 77.77.
End data.

(** [download_data(tickers)]; [adj_close] is the outcome of
    [yf.download(tickers, period='1d')['Adj Close']]. *)
Definition download_data (tickers : list string) (adj_close : result DataFrame)
    : M DataFrame :=
  try_except_Exception
    (data ← fetched adj_close;
     if df_empty data
     then show (st_warning ("No data available for some tickers: "
                            +:+ repr_list tickers));;
          mret data
     else mret data)
    (λ e, show (st_error ("Error downloading data: " +:+ exn_str e));;
          mret empty_frame).

(** [get_fx_rate()]; [fx_data] is the outcome of
    [yf.download('HKD=X', period='1d')].  [None] is Python's [None]. *)
Definition get_fx_rate (fx_data : result DataFrame) : option Qc :=
  match outcome
          (fx_data ← fetched fx_data;
           if negb (df_empty fx_data) && df_contains fx_data "Adj Close"
           then column ← df_getitem fx_data "Adj Close";
                last_close ← iloc_last column;
                rate ← div 1 last_close;
                mret (Some rate)
           else mret None)
  with
  | Ok r => r
  | Raise _ => None
  end.

(** [x or d]: [d] when [x] is [None] or zero. *)
Definition or_default (x : option Qc) (d : Qc) : Qc :=
  match x with
  | Some q => if bool_decide (q = 0) then d else q
  | None => d
  end.

(** [fx_rate_hkd_to_usd = get_fx_rate() or 0.128]. *)
Definition fx_rate_hkd_to_usd_of (fx_data : result DataFrame) : Qc :=
  or_default (get_fx_rate fx_data) (float 0.128).

(** The dict returned by [calculate_portfolio_metrics]. *)
Record metrics := Metrics {
  total_invested : val;
  total_current_hk : val;
  total_current_usa : val;
  total_current : val;
  performance_hk : val;
  performance_usa : val
}.

(** The dict of the [except] branch. *)
Definition default_metrics : metrics :=
  Metrics (Num 0) (Num 0) (Num 0) (Num 0) (Num 0) (Num 0).

(** The classes named by the inner [except]. *)
Definition price_errors : list exn_class := [IndexError; AttributeError; KeyError].

Definition price_warning (ticker : string) : message :=
  st_warning ("Failed to get current price for " +:+ ticker
              +:+ ". Using purchase price instead.").

(** The price read inside the inner [try]: the last row of the ticker's
    column, or the column itself when it has no row. *)
Definition current_price_of (prices : DataFrame) (ticker : string) : M val :=
  price ← df_getitem prices ticker;
  if bool_decide (price ≠ [])
  then last_row ← iloc_last price; mret (Num last_row)
  else mret EmptySeries.

Section globals.
Variables portfolio_hk portfolio_usa : list string.
Variables shares_owned_hk shares_owned_usa : gmap string Qc.
Variables purchase_prices_hk purchase_prices_usa : gmap string Qc.
Variables current_prices_hk current_prices_usa : DataFrame.
Variable fx_rate_hkd_to_usd : Qc.

(** One term of the generators of lines 134-137 and 153-156. *)
Definition invested_hk_usd (ticker : string) : M Qc :=
  shares ← dict_get shares_owned_hk ticker;
  purchase_price ← dict_get purchase_prices_hk ticker;
  mret (shares * purchase_price * fx_rate_hkd_to_usd).

Definition invested_usa (ticker : string) : M Qc :=
  shares ← dict_get shares_owned_usa ticker;
  purchase_price ← dict_get purchase_prices_usa ticker;
  mret (shares * purchase_price).

(** One iteration of the loops of lines 140-150 and 159-169. *)
Definition add_current_hk (total : val) (ticker : string) : M val :=
  try_except
    (current_price ← current_price_of current_prices_hk ticker;
     shares ← dict_get shares_owned_hk ticker;
     mret (vadd total
             (vmul (vmul (Num shares) current_price) (Num fx_rate_hkd_to_usd))))
    price_errors
    (λ _, show (price_warning ticker);;
          fallback ← invested_hk_usd ticker;
          mret (vadd total (Num fallback))).

Definition add_current_usa (total : val) (ticker : string) : M val :=
  try_except
    (current_price ← current_price_of current_prices_usa ticker;
     shares ← dict_get shares_owned_usa ticker;
     mret (vadd total (vmul (Num shares) current_price)))
    price_errors
    (λ _, show (price_warning ticker);;
          fallback ← invested_usa ticker;
          mret (vadd total (Num fallback))).

(** The value one iteration adds to the running total: the right-hand
    side of the [+=] of the [try] branch, or of the [except] branch. *)
Definition current_value_hk_usd (ticker : string) : M val :=
  try_except
    (current_price ← current_price_of current_prices_hk ticker;
     shares ← dict_get shares_owned_hk ticker;
     mret (vmul (vmul (Num shares) current_price) (Num fx_rate_hkd_to_usd)))
    price_errors
    (λ _, show (price_warning ticker);;
          fallback ← invested_hk_usd ticker;
          mret (Num fallback)).

Definition current_value_usa (ticker : string) : M val :=
  try_except
    (current_price ← current_price_of current_prices_usa ticker;
     shares ← dict_get shares_owned_usa ticker;
     mret (vmul (Num shares) current_price))
    price_errors
    (λ _, show (price_warning ticker);;
          fallback ← invested_usa ticker;
          mret (Num fallback)).

(** [0 if invested == 0 else (current / invested - 1) * 100]. *)
Definition performance_of (current : val) (invested : Qc) : M val :=
  if bool_decide (invested = 0) then mret (Num 0)
  else ratio ← vdiv current (Num invested);
       mret (vmul (vsub ratio (Num 1)) (Num (float 100))).

(** The body of the outer [try]. *)
Definition calculate_body : M metrics :=
  total_invested_value_hk_usd ← sum_gen invested_hk_usd portfolio_hk;
  total_current_value_hk_usd ← for_loop add_current_hk (Num 0) portfolio_hk;
  total_invested_value_usa ← sum_gen invested_usa portfolio_usa;
  total_current_value_usa ← for_loop add_current_usa (Num 0) portfolio_usa;
  performance_hk ← performance_of total_current_value_hk_usd
                                   total_invested_value_hk_usd;
  performance_usa ← performance_of total_current_value_usa
                                    total_invested_value_usa;
  mret {| total_invested :=
            Num (total_invested_value_hk_usd + total_invested_value_usa);
          total_current_hk := total_current_value_hk_usd;
          total_current_usa := total_current_value_usa;
          total_current :=
            vadd total_current_value_hk_usd total_current_value_usa;
          performance_hk := performance_hk;
          performance_usa := performance_usa |}.

Definition calculate_portfolio_metrics : M metrics :=
  try_except_Exception calculate_body
    (λ e, show (st_error ("Error calculating portfolio metrics: "
                          +:+ exn_str e));;
          mret default_metrics).
End globals.

(** The value shown as "Total Return" (before formatting):
    [(total_current / total_invested - 1) * 100], each operand summed first
    when it is a [Series]. *)
Definition total_return (m : metrics) : M Qc :=
  ratio ← div (sum_if_series (total_current m)) (sum_if_series (total_invested m));
  mret ((ratio - 1) * float 100).

(** [f"{v:,.2f}"]: a number is printed (the text is not modelled, the number
    stands for it); a [Series] has no such format. *)
Definition format_number (v : val) : M Qc :=
  match v with
  | Num q => mret q
  | EmptySeries =>
      raise (Exn TypeError
               "unsupported format string passed to Series.__format__")
  end.

(** The four [st.metric] of the top of the page, in the order the script
    evaluates them. *)
Record headline := Headline {
  Total_Return : Qc;
  Total_Investment : Qc;
  Current_Value : Qc;
  Available_Cash : Qc
}.

Definition headline_metrics (cash_available : Qc) (m : metrics) : M headline :=
  total_return ← total_return m;
  total_investment ← format_number (total_invested m);
  current_value ← format_number (vadd (total_current m) (Num cash_available));
  mret (Headline total_return total_investment current_value cash_available).

(** The script of the page from the downloads to the four metrics: the
    downloads of lines 127-129, [calculate_portfolio_metrics], the metrics. *)
Definition overview (portfolio_hk portfolio_usa : list string)
    (shares_owned_hk shares_owned_usa : gmap string Qc)
    (purchase_prices_hk purchase_prices_usa : gmap string Qc)
    (cash_available : Qc)
    (adj_close_hk adj_close_usa fx_data : result DataFrame) : M headline :=
  current_prices_hk ← download_data portfolio_hk adj_close_hk;
  current_prices_usa ← download_data portfolio_usa adj_close_usa;
  let fx_rate_hkd_to_usd := fx_rate_hkd_to_usd_of fx_data in
  metrics ← calculate_portfolio_metrics portfolio_hk portfolio_usa
               shares_owned_hk shares_owned_usa
               purchase_prices_hk purchase_prices_usa
               current_prices_hk current_prices_usa fx_rate_hkd_to_usd;
  headline_metrics cash_available metrics.




End dashboard_general.

(** [s.sum()] on a column of a frame. *)
Definition series_sum (s : Series) : Qc := foldr Qcplus 0 s.

(** [(current / invested - 1) * 100], the division unguarded. *)
Definition pct_change (current invested : Qc) : M Qc :=
  ratio ← div current invested;
  mret ((ratio - 1) * float 100).

Definition loading_error : message :=
  st_error "Error loading data. Please try again later.".

(** [download_data] of the three detail pages: the fetched frame, or
    [pd.DataFrame()] when it is empty or the fetch raised. *)
Definition pages_download_data (data : result DataFrame) : DataFrame :=
  match outcome
          (data ← fetched data;
           mret (if negb (df_empty data) then data else empty_frame))
  with
  | Ok df => df
  | Raise _ => empty_frame
  end.

(** One dict of [portfolio_data] on the market pages.  The three formatted
    columns are kept as the numbers they print. *)
Record holding_row := HoldingRow {
  Ticker : string;
  Shares_Owned : Qc;
  Purchase_Price_USD : Qc;
  Current_Price_USD : Qc;
  Invested_Value_USD : Qc;
  Current_Value_USD : Qc;
  Performance_pct : Qc
}.

(** What a market page computes before it draws. *)
Record market_page := MarketPage {
  df : list holding_row;
  page_total_invested : Qc;
  page_total_current : Qc;
  page_total_performance : Qc
}.

(** ** [pages/dashboard_usa.py] *)

Module dashboard_usa.

Definition download_data := pages_download_data.

Section globals.
Variable portfolio_usa : list string.
Variables shares_owned_usa purchase_prices_usa : gmap string Qc.

(** The body of the loop of lines 133-149. *)
Definition portfolio_row (current_prices_usa : DataFrame) (ticker : string)
    : M holding_row :=
  shares ← dict_get shares_owned_usa ticker;
  purchase_price ← dict_get purchase_prices_usa ticker;
  current_price ←
    (if df_contains current_prices_usa ticker
     then column ← df_getitem current_prices_usa ticker; iloc_first column
     else mret 0);
  let invested_value := shares * purchase_price in
  let current_value := shares * current_price in
  performance ←
    (if bool_decide (0 < invested_value)
     then pct_change current_value invested_value
     else mret 0);
  mret (HoldingRow ticker shares purchase_price current_price
                   invested_value current_value performance).

(** [main()] up to the totals; [None] is the early [return]. *)
Definition main (adj_close : result DataFrame) : M (option market_page) :=
  let current_prices_usa := download_data adj_close in
  if df_empty current_prices_usa
  then show loading_error;; mret None
  else
    portfolio_data ←
      for_append (portfolio_row current_prices_usa) portfolio_usa;
    let total_invested := series_sum (Invested_Value_USD <$> portfolio_data) in
    let total_current := series_sum (Current_Value_USD <$> portfolio_data) in
    total_performance ←
      (if bool_decide (0 < total_invested)
       then pct_change total_current total_invested
       else mret 0);
    mret (Some (MarketPage portfolio_data total_invested total_current
                           total_performance)).
End globals.

(** [lambda x: f"{x:.2f}%"] of line 191. *)
Definition display_performance (x : Qc) : string := format_2f x +:+ "%".

Definition color_performance (val : string) : M string :=
  val ← py_float (strip val "%");
  let color := if bool_decide (0 ≤ val) then "#1cc88a" else "#e74a3b" in
  mret ("color: " +:+ color +:+ "; font-weight: bold").

(** The column [Performance (%)] of the styled table: the text of each cell
    and the style [color_performance] gives it. *)
Definition styled_performance (rows : list holding_row)
    : M (list (string * string)) :=
  for_append (λ row,
                let text := display_performance (Performance_pct row) in
                style ← color_performance text;
                mret (text, style))
             rows.

End dashboard_usa.

(** ** [pages/dashboard_hk.py] *)

Module dashboard_hk.

Definition download_data := pages_download_data.

(** [get_fx_rate()]; [fx_data] is the outcome of
    [yf.download('HKD=X', period='1d')]. *)
Definition get_fx_rate (fx_data : result DataFrame) : Qc :=
  match outcome
          (fx_data ← fetched fx_data;
           fx_rate_usd_to_hkd ←
             (if negb (df_empty fx_data)
              then column ← df_getitem fx_data "Adj Close"; iloc_first column
              else mret (float 7.85));
           div 1 fx_rate_usd_to_hkd)
  with
  | Ok rate => rate
  | Raise _ => float 0.128
  end.

Section globals.
Variable portfolio_hk : list string.
Variables shares_owned_hk purchase_prices_hk : gmap string Qc.

(** The body of the loop of lines 120-136. *)
Definition portfolio_row (current_prices_hk : DataFrame)
    (fx_rate_hkd_to_usd : Qc) (ticker : string) : M holding_row :=
  shares ← dict_get shares_owned_hk ticker;
  purchase_price ← dict_get purchase_prices_hk ticker;
  let purchase_price_usd := purchase_price * fx_rate_hkd_to_usd in
  column ← df_getitem current_prices_hk ticker;
  first_row ← iloc_first column;
  let current_price_usd := first_row * fx_rate_hkd_to_usd in
  let invested_value := shares * purchase_price_usd in
  let current_value := shares * current_price_usd in
  performance ← pct_change current_value invested_value;
  mret (HoldingRow ticker shares purchase_price_usd current_price_usd
                   invested_value current_value performance).

(** The page after the two fetches. *)
Definition main_with (current_prices_hk : DataFrame) (fx_rate_hkd_to_usd : Qc)
    : M (option market_page) :=
  if df_empty current_prices_hk
  then show loading_error;; mret None
  else
    portfolio_data ←
      for_append (portfolio_row current_prices_hk fx_rate_hkd_to_usd)
                 portfolio_hk;
    let total_invested := series_sum (Invested_Value_USD <$> portfolio_data) in
    let total_current := series_sum (Current_Value_USD <$> portfolio_data) in
    total_performance ← pct_change total_current total_invested;
    mret (Some (MarketPage portfolio_data total_invested total_current
                           total_performance)).

(** [main()] up to the totals. *)
Definition main (adj_close fx_data : result DataFrame) : M (option market_page) :=
  main_with (download_data adj_close) (get_fx_rate fx_data).
End globals.

End dashboard_hk.

(** ** [pages/dashboard_detail.py] *)

Module dashboard_detail.

Definition download_data := pages_download_data.

(** One purchase of [positions]. *)
Record position := Position { shares : Qc; price : Qc; date : string }.

(** One dict of [stock_data], the formatted columns kept as numbers. *)
Record position_row := PositionRow {
  Purchase_Date : string;
  Shares : Qc;
  Purchase_Price : Qc;
  Current_Price : Qc;
  Invested_Value : Qc;
  Current_Value : Qc;
  Performance : Qc
}.

Record detail_page := DetailPage {
  total_shares : Qc;
  total_invested : Qc;
  current_price : Qc;
  current_value : Qc;
  performance : Qc;
  stock_data : list position_row
}.

(** The purchases written in the page. *)
Module data.
Definition portfolio : list string :=
  ["BABA"; "ACN"; "PDD"; "BIDU"; "NKE"; "DAVA"; "VOO"; "QQQ"; "SPYG";
   "1211.HK"; "0700.HK"].
Definition positions : gmap string (list position) :=
  {[ "VOO" := [Position (float 0.48222) (float 455.80) "2024-02-20";
               Position (float 1.51778) (float 475.97) "2024-03-08"];
     "QQQ" := [Position (float 0.11396) (float 438.19) "2024-02-29";
               Position (float 0.88604) (float 447.66) "2024-03-08";
               Position (float 0.1556) (float 434.25) "2024-03-15"];
     "BABA" := [Position (float 3.6717) (float 81.74) "2024-05-06"];
     "ACN" := [Position (float 0.44484) (float 292.24) "2024-06-06"];
     "PDD" := [Position (float 2.11386) (float 141.92) "2024-05-16"];
     "BIDU" := [Position (float 0.45074) (float 110.9287) "2024-05-17"];
     "NKE" := [Position (float 1.09433) (float 91.38) "2024-05-13"];
     "DAVA" := [Position (float 3.20205) (float 31.23) "2024-05-17"];
     "SPYG" := [Position (float 1) (float 72.43) "2024-03-13"];
     "1211.HK" := [Position (float 6.91) (float 226) "2024-05-05"];
     "0700.HK" := [Position (float 0.98) (float 399.60) "2022-04-01"] ]}.
End data.

Section globals.
Variable positions : gmap string (list position).

(** The body of the loop of lines 127-140. *)
Definition position_row_of (current_price : Qc) (pos : position) : M position_row :=
  let current_value_pos := shares pos * current_price in
  let invested_value_pos := shares pos * price pos in
  performance_pos ← pct_change current_value_pos invested_value_pos;
  mret (PositionRow (date pos) (shares pos) (price pos) current_price
                    invested_value_pos current_value_pos performance_pos).

(** [main()] up to the table, for the ticker picked in the select box. *)
Definition main (selected_ticker : string) (history spy : result DataFrame)
    : M (option detail_page) :=
  let historical_data := download_data history in
  let spy_data := download_data spy in
  if df_empty historical_data || df_empty spy_data
  then show loading_error;; mret None
  else
    lots ← dict_get positions selected_ticker;
    let total_shares := py_sum (shares <$> lots) in
    let total_invested := py_sum ((λ pos, shares pos * price pos) <$> lots) in
    column ← df_getitem historical_data "Adj Close";
    current_price ← iloc_last column;
    let current_value := total_shares * current_price in
    performance ← pct_change current_value total_invested;
    stock_data ←
      for_append (position_row_of current_price) lots;
    mret (Some (DetailPage total_shares total_invested current_price
                           current_value performance stock_data)).
End globals.

End dashboard_detail.

(** ** Notions of the specification *)

(** The sum of the values the overview adds up, left to right from 0. *)
Definition vsum (l : list val) : val := foldl vadd (Num 0) l.

(** The arithmetic mean of per-ticker percentages (the aggregation the
    pages do not use). *)
Definition mean (l : list Qc) : Qc := series_sum l / Q2Qc (inject_Z (Z.of_nat (length l))).



(** The outcome of a page, seen through a projection of what it computed. *)
Definition observe {A B} (f : A → B) (c : M (option A)) : result (option B) :=
  match outcome c with
  | Ok p => Ok (f <$> p)
  | Raise e => Raise e
  end.

(** ** Closed forms of the overview *)

(** Every ticker of the portfolio has a share count and a purchase price. *)
Definition complete (portfolio : list string)
    (shares_owned purchase_prices : gmap string Qc) : Prop :=
  Forall (λ ticker, is_Some (shares_owned !! ticker)
                    ∧ is_Some (purchase_prices !! ticker)) portfolio.

Global Instance complete_dec portfolio shares_owned purchase_prices :
  Decision (complete portfolio shares_owned purchase_prices).
Proof. unfold complete. apply _. Defined.

(** The tickers of the portfolio that have no column in the price frame. *)
Definition unquoted (prices : DataFrame) (portfolio : list string) : list string :=
  filter (λ ticker, prices !! ticker = None) portfolio.

(** A dict entry, 0 standing for a missing one. *)
Definition entry (d : gmap string Qc) (k : string) : Qc := default 0 (d !! k).

(** What [current_price_of] reads from a column: its last row, or the empty
    column itself. *)
Definition price_val (column : Series) : val :=
  match list.last column with
  | Some last_row => Num last_row
  | None => EmptySeries
  end.

Definition hk_invested_term (shares_owned purchase_prices : gmap string Qc)
    (fx : Qc) (ticker : string) : Qc :=
  entry shares_owned ticker * entry purchase_prices ticker * fx.

Definition usa_invested_term (shares_owned purchase_prices : gmap string Qc)
    (ticker : string) : Qc :=
  entry shares_owned ticker * entry purchase_prices ticker.

Definition hk_current_term (shares_owned purchase_prices : gmap string Qc)
    (prices : DataFrame) (fx : Qc) (ticker : string) : val :=
  match prices !! ticker with
  | Some column =>
      vmul (vmul (Num (entry shares_owned ticker)) (price_val column)) (Num fx)
  | None => Num (hk_invested_term shares_owned purchase_prices fx ticker)
  end.

Definition usa_current_term (shares_owned purchase_prices : gmap string Qc)
    (prices : DataFrame) (ticker : string) : val :=
  match prices !! ticker with
  | Some column => vmul (Num (entry shares_owned ticker)) (price_val column)
  | None => Num (usa_invested_term shares_owned purchase_prices ticker)
  end.

(** The value of [performance_of]. *)
Definition performance_val (current : val) (invested : Qc) : val :=
  if bool_decide (invested = 0) then Num 0
  else vmul (vsub (lift2 Qcdiv current (Num invested)) (Num 1))
            (Num (float 100)).

(** The dict the body of [calculate_portfolio_metrics] computes when the
    portfolio dicts are complete. *)
Definition metrics_closed_form
    (portfolio_hk portfolio_usa : list string)
    (shares_owned_hk shares_owned_usa : gmap string Qc)
    (purchase_prices_hk purchase_prices_usa : gmap string Qc)
    (current_prices_hk current_prices_usa : DataFrame)
    (fx : Qc) : dashboard_general.metrics :=
  let invested_hk :=
    series_sum (hk_invested_term shares_owned_hk purchase_prices_hk fx
                  <$> portfolio_hk) in
  let current_hk :=
    vsum (hk_current_term shares_owned_hk purchase_prices_hk current_prices_hk
            fx <$> portfolio_hk) in
  let invested_usa :=
    series_sum (usa_invested_term shares_owned_usa purchase_prices_usa
                  <$> portfolio_usa) in
  let current_usa :=
    vsum (usa_current_term shares_owned_usa purchase_prices_usa
            current_prices_usa <$> portfolio_usa) in
  dashboard_general.Metrics
    (Num (invested_hk + invested_usa)) current_hk current_usa
    (vadd current_hk current_usa)
    (performance_val current_hk invested_hk)
    (performance_val current_usa invested_usa).

(** ** Closed forms of the market pages *)

(** A fetch that gives a page nothing to show: it raised, or its frame is
    empty. *)
Definition no_data (fetch : result DataFrame) : Prop :=
  match fetch with
  | Ok frame => df_empty frame = true
  | Raise _ => True
  end.





(** Every ticker of the portfolio has a column with at least one row. *)
Definition quoted (prices : DataFrame) (portfolio : list string) : Prop :=
  Forall (λ ticker, is_Some (prices !! ticker) ∧ prices !! ticker ≠ Some [])
         portfolio.

Global Instance quoted_dec prices portfolio : Decision (quoted prices portfolio).
Proof. unfold quoted. apply _. Defined.

(** Every ticker of the portfolio has a column of exactly one row, as a
    download of one day gives. *)
Definition quoted_once (prices : DataFrame) (portfolio : list string) : Prop :=
  Forall (λ ticker, length <$> prices !! ticker = Some 1%nat) portfolio.

Global Instance quoted_once_dec prices portfolio :
  Decision (quoted_once prices portfolio).
Proof. unfold quoted_once. apply _. Defined.

Global Instance no_data_dec fetch : Decision (no_data fetch).
Proof. destruct fetch; apply _. Defined.

(** Every ticker of the portfolio has a positive share count and a positive
    purchase price, as the holdings written in the pages have. *)
Definition positive (portfolio : list string)
    (shares_owned purchase_prices : gmap string Qc) : Prop :=
  Forall (λ ticker, 0 < entry shares_owned ticker
                    ∧ 0 < entry purchase_prices ticker) portfolio.

Global Instance positive_dec portfolio shares_owned purchase_prices :
  Decision (positive portfolio shares_owned purchase_prices).
Proof. unfold positive. apply _. Defined.

(** ** Texts of numbers *)

(** The number a text of [format_2f] stands for. *)
Definition rounded_2f (x : Qc) : Qc :=
  let negative := bool_decide (x < 0) in
  let v := Z2Qc (rint ((if negative then - x else x) * float 100))
           / float 100 in
  if negative then - v else v.

(** No character of [s] is one of [chars]. *)
Fixpoint free_of (s chars : string) : bool :=
  match s with
  | String a rest => negb (in_chars a chars) && free_of rest chars
  | EmptyString => true
  end.

(** ** A two-ticker portfolio used in the examples *)

Module example.
Definition portfolio : list string := ["AAA"; "BBB"].
Definition shares_owned : gmap string Qc :=
  {[ "AAA" := float 2; "BBB" := float 1 ]}.
Definition purchase_prices : gmap string Qc :=
  {[ "AAA" := float 100; "BBB" := float 100 ]}.
(** Both tickers quoted: AAA at 150, BBB at 90. *)
Definition quotes : DataFrame :=
  {[ "AAA" := [float 150]; "BBB" := [float 90] ]}.
(** Only AAA quoted. *)
Definition quotes_without_BBB : DataFrame := {[ "AAA" := [float 150] ]}.
(** A year of daily closes, reduced to its last two days. *)
Definition history : DataFrame :=
  {[ "Adj Close" := [float 500; float 510]; "Close" := [float 501; float 511] ]}.
(** A frame of [HKD=X] closing at 7.8. *)
Definition hkd_quote : DataFrame := {[ "Adj Close" := [float 7.8] ]}.
(** The frame of a download that produced the columns and no row. *)
Definition quotes_without_rows : DataFrame := {[ "AAA" := []; "BBB" := [] ]}.
(** A portfolio naming a ticker the dicts do not have. *)
Definition portfolio_with_unknown : list string := ["AAA"; "CCC"].
End example.

(** * Properties *)

(** Equations between closed values: evaluate both sides, then compare
    componentwise, rationals by their canonical fractions. *)
Ltac evaluate :=
  vm_compute;
  repeat first
    [ reflexivity
    | match goal with |- @eq Qc _ _ => apply Qc_is_canon; reflexivity end
    | progress f_equal ].

(** ** The effect monad *)

Section monad.
Context {A B : Type}.
Implicit Types (c : M A) (k : A → M B).

Lemma bind_Ok c k log a :
  c = (log, Ok a) → c ≫= k = (log ++ messages (k a), outcome (k a)).
Proof. intros ->. cbn. by destruct (k a). Qed.

Lemma bind_Raise c k log e : c = (log, Raise e) → c ≫= k = (log, Raise e).
Proof. by intros ->. Qed.

Lemma mret_bind a k : mret a ≫= k = k a.
Proof. cbn. by destruct (k a). Qed.


Lemma outcome_bind c k :
  outcome (c ≫= k) =
  match outcome c with Ok a => outcome (k a) | Raise e => Raise e end.
Proof. destruct c as [log [a|e]]; cbn; [by destruct (k a)|done]. Qed.

Lemma messages_bind c k :
  messages (c ≫= k) =
  match outcome c with
  | Ok a => messages c ++ messages (k a)
  | Raise e => messages c
  end.
Proof. destruct c as [log [a|e]]; cbn; [by destruct (k a)|done]. Qed.

Lemma outcome_bind_Ok c k b :
  outcome (c ≫= k) = Ok b → ∃ a, outcome c = Ok a ∧ outcome (k a) = Ok b.
Proof.
  rewrite outcome_bind. destruct (outcome c) as [a|e]; [|done]. by exists a.
Qed.
End monad.

Lemma M_eta {A} (c : M A) : c = (messages c, outcome c).
Proof. by destruct c. Qed.

Lemma M_eq {A} (c d : M A) :
  messages c = messages d → outcome c = outcome d → c = d.
Proof. destruct c, d; cbn; congruence. Qed.

Lemma outcome_mret {A} (a : A) : outcome (mret a : M A) = Ok a.
Proof. done. Qed.

Lemma try_except_Exception_total {A} (c : M A) (h : exn → M A) :
  (∀ e, ∃ a, outcome (h e) = Ok a) →
  ∃ a, outcome (try_except_Exception c h) = Ok a.
Proof.
  intros Hh. destruct c as [log [a|e]]; cbn; [by exists a|].
  destruct (Hh e) as [a Ha]. exists a. by destruct (h e).
Qed.


Lemma M_eta_outcome {A} (c : M A) (r : result A) :
  outcome c = r → c = (messages c, r).
Proof. intros <-. apply M_eta. Qed.

Lemma try_except_Exception_Raise {A} (c : M A) (h : exn → M A) log e :
  c = (log, Raise e) →
  try_except_Exception c h = (log ++ messages (h e), outcome (h e)).
Proof. intros ->. cbn. by destruct (h e). Qed.

(** ** Loops and sums *)

Lemma for_loop_app_outcome {X R} (f : X → M R) (l : list X) (acc rows : list R) :
  outcome (for_loop (λ rows x, row ← f x; mret (rows ++ [row])) acc l) = Ok rows →
  ∃ new, rows = acc ++ new ∧ Forall2 (λ x r, outcome (f x) = Ok r) l new.
Proof.
  revert acc. induction l as [|x l IH]; intros acc; cbn [for_loop].
  - intros [= <-]. exists []. by rewrite app_nil_r.
  - intros H. apply outcome_bind_Ok in H as (acc' & H1 & H2).
    apply outcome_bind_Ok in H1 as (r & Hr & [= <-]).
    apply IH in H2 as (new & -> & Hnew).
    exists (r :: new). split; [by rewrite <-app_assoc|by constructor].
Qed.

Lemma for_append_outcome {X R} (f : X → M R) (l : list X) (rows : list R) :
  outcome (for_append f l) = Ok rows →
  Forall2 (λ x r, outcome (f x) = Ok r) l rows.
Proof.
  intros H. apply for_loop_app_outcome in H as (new & -> & H). done.
Qed.



Lemma sum_gen_from_outcome {X} (f : X → M Qc) (l : list X) (acc total : Qc) :
  outcome (sum_gen_from acc f l) = Ok total →
  ∃ terms, Forall2 (λ x v, outcome (f x) = Ok v) l terms
           ∧ total = acc + series_sum terms.
Proof.
  revert acc. induction l as [|x l IH]; intros acc; cbn [sum_gen_from].
  - intros [= <-]. exists []. split; [constructor|unfold series_sum; cbn [foldr]; ring].
  - intros H. apply outcome_bind_Ok in H as (v & Hv & H).
    apply IH in H as (terms & Hterms & ->).
    exists (v :: terms). split; [by constructor|unfold series_sum; cbn [foldr]; ring].
Qed.

Lemma sum_gen_outcome {X} (f : X → M Qc) (l : list X) (total : Qc) :
  outcome (sum_gen f l) = Ok total →
  ∃ terms, Forall2 (λ x v, outcome (f x) = Ok v) l terms
           ∧ total = series_sum terms.
Proof.
  intros H. apply sum_gen_from_outcome in H as (terms & Hterms & ->).
  exists terms. split; [done|ring].
Qed.

Lemma vadd_0_l (v : val) : vadd (Num 0) v = v.
Proof. destruct v as [q|]; [|done]. cbn. f_equal. ring. Qed.

Lemma vadd_assoc (a b c : val) : vadd a (vadd b c) = vadd (vadd a b) c.
Proof.
  destruct a, b, c; try done. cbn. f_equal. ring.
Qed.

Lemma foldl_vadd (acc : val) (l : list val) :
  foldl vadd acc l = vadd acc (vsum l).
Proof.
  unfold vsum. revert acc. induction l as [|v l IH]; intros acc; cbn [foldl].
  - destruct acc; [|done]. cbn. f_equal. ring.
  - rewrite IH, (IH (vadd _ v)), vadd_0_l. symmetry. apply vadd_assoc.
Qed.



(** A loop that adds one value per element returns the running total plus
    the sum of the values. *)
Lemma for_loop_add_outcome {X} (term : X → M val) (body : val → X → M val)
    (l : list X) (acc total : val) :
  (∀ s x, body s x = (v ← term x; mret (vadd s v))) →
  outcome (for_loop body acc l) = Ok total →
  ∃ terms, Forall2 (λ x v, outcome (term x) = Ok v) l terms
           ∧ total = vadd acc (vsum terms).
Proof.
  intros Hbody. revert acc.
  induction l as [|x l IH]; intros acc; cbn [for_loop].
  - intros [= <-]. exists []. split; [constructor|].
    destruct acc; [|done]. cbn. f_equal. ring.
  - intros H. apply outcome_bind_Ok in H as (s' & Hs' & H).
    rewrite Hbody in Hs'. apply outcome_bind_Ok in Hs' as (v & Hv & [= <-]).
    apply IH in H as (terms & Hterms & ->).
    exists (v :: terms). split; [by constructor|].
    unfold vsum at 2. cbn [foldl]. rewrite foldl_vadd, vadd_0_l.
    symmetry. apply vadd_assoc.
Qed.

(** ** The overview page *)

Section overview.
Import dashboard_general.
Context (portfolio_hk portfolio_usa : list string).
Context (shares_owned_hk shares_owned_usa : gmap string Qc).
Context (purchase_prices_hk purchase_prices_usa : gmap string Qc).
Context (current_prices_hk current_prices_usa : DataFrame).

Lemma add_current_hk_term fx total ticker :
  add_current_hk shares_owned_hk purchase_prices_hk current_prices_hk fx
                 total ticker
  = (v ← current_value_hk_usd shares_owned_hk purchase_prices_hk
                               current_prices_hk fx ticker;
     mret (vadd total v)).
Proof.
  unfold add_current_hk, current_value_hk_usd, invested_hk_usd.
  destruct (current_price_of current_prices_hk ticker) as [log [cp|e]];
    unfold dict_get;
    destruct (shares_owned_hk !! ticker), (purchase_prices_hk !! ticker);
    cbn; repeat case_bool_decide; cbn; by rewrite ?app_nil_r.
Qed.

Lemma add_current_usa_term total ticker :
  add_current_usa shares_owned_usa purchase_prices_usa current_prices_usa
                  total ticker
  = (v ← current_value_usa shares_owned_usa purchase_prices_usa
                            current_prices_usa ticker;
     mret (vadd total v)).
Proof.
  unfold add_current_usa, current_value_usa, invested_usa.
  destruct (current_price_of current_prices_usa ticker) as [log [cp|e]];
    unfold dict_get;
    destruct (shares_owned_usa !! ticker), (purchase_prices_usa !! ticker);
    cbn; repeat case_bool_decide; cbn; by rewrite ?app_nil_r.
Qed.
End overview.

(** ** Division and percentages *)


Lemma pct_change_outcome (current invested : Qc) :
  outcome (pct_change current invested) =
  if bool_decide (invested = 0)
  then Raise (Exn ZeroDivisionError "division by zero")
  else Ok ((current / invested - 1) * float 100).
Proof. unfold pct_change, div. by case_bool_decide. Qed.

Lemma pct_change_Ok (current invested q : Qc) :
  outcome (pct_change current invested) = Ok q →
  invested ≠ 0 ∧ q = (current / invested - 1) * float 100.
Proof. rewrite pct_change_outcome. case_bool_decide; naive_solver. Qed.

Lemma dict_get_outcome {V} (d : gmap string V) (k : string) (v : V) :
  outcome (dict_get d k) = Ok v ↔ d !! k = Some v.
Proof. unfold dict_get. destruct (d !! k); cbn; naive_solver. Qed.

Lemma Qclt_0_ne (q : Qc) : 0 < q → q ≠ 0.
Proof. intros Hlt ->. by apply (Qclt_not_eq 0 0). Qed.

(** ** The market pages *)

Section usa_page.
Import dashboard_usa.
Context (portfolio_usa : list string).
Context (shares_owned_usa purchase_prices_usa : gmap string Qc).

Lemma usa_portfolio_row_Ok prices ticker row :
  outcome (portfolio_row shares_owned_usa purchase_prices_usa prices ticker)
    = Ok row →
  ∃ shares purchase_price current_price,
    shares_owned_usa !! ticker = Some shares
    ∧ purchase_prices_usa !! ticker = Some purchase_price
    ∧ match prices !! ticker with
      | Some column => head column = Some current_price
      | None => current_price = 0
      end
    ∧ row = HoldingRow ticker shares purchase_price current_price
              (shares * purchase_price) (shares * current_price)
              (if bool_decide (0 < shares * purchase_price)
               then (shares * current_price / (shares * purchase_price) - 1)
                    * float 100
               else 0).
Proof.
  unfold portfolio_row. intros H.
  apply outcome_bind_Ok in H as (shares & Hs%dict_get_outcome & H).
  apply outcome_bind_Ok in H as (purchase & Hp%dict_get_outcome & H).
  apply outcome_bind_Ok in H as (current & Hc & H).
  apply outcome_bind_Ok in H as (perf & Hperf & [= <-]).
  exists shares, purchase, current. split_and!; [done..| |].
  - unfold df_contains, df_getitem in Hc.
    destruct (prices !! ticker) as [column|] eqn:Hcol.
    + rewrite bool_decide_eq_true_2 in Hc by done.
      apply outcome_bind_Ok in Hc as (column' & Hcol'%dict_get_outcome & Hc).
      assert (column' = column) as -> by congruence.
      unfold iloc_first in Hc. by destruct (head column); simplify_eq/=.
    + rewrite bool_decide_eq_false_2 in Hc by (by intros [? ?]).
      by simplify_eq/=.
  - f_equal. case_bool_decide as Hpos; [|by simplify_eq/=].
    by apply pct_change_Ok in Hperf as [_ ->].
Qed.

Lemma usa_main_Ok adj_close page :
  outcome (main portfolio_usa shares_owned_usa purchase_prices_usa adj_close)
    = Ok (Some page) →
  Forall2 (λ ticker row,
             outcome (portfolio_row shares_owned_usa purchase_prices_usa
                        (download_data adj_close) ticker) = Ok row)
          portfolio_usa (df page)
  ∧ page_total_invested page = series_sum (Invested_Value_USD <$> df page)
  ∧ page_total_current page = series_sum (Current_Value_USD <$> df page)
  ∧ page_total_performance page =
      if bool_decide (0 < page_total_invested page)
      then (page_total_current page / page_total_invested page - 1) * float 100
      else 0.
Proof.
  unfold main. destruct (df_empty _); [done|]. intros H.
  apply outcome_bind_Ok in H as (rows & Hrows%for_append_outcome & H).
  apply outcome_bind_Ok in H as (perf & Hperf & [= <-]). cbn.
  split_and!; [done..|].
  case_bool_decide; [|by simplify_eq/=].
  by apply pct_change_Ok in Hperf as [_ ->].
Qed.
End usa_page.

Section hk_page.
Import dashboard_hk.
Context (portfolio_hk : list string).
Context (shares_owned_hk purchase_prices_hk : gmap string Qc).


Lemma hk_main_with_Ok prices fx page :
  outcome (main_with portfolio_hk shares_owned_hk purchase_prices_hk prices fx)
    = Ok (Some page) →
  Forall2 (λ ticker row,
             outcome (portfolio_row shares_owned_hk purchase_prices_hk
                        prices fx ticker) = Ok row)
          portfolio_hk (df page)
  ∧ page_total_invested page = series_sum (Invested_Value_USD <$> df page)
  ∧ page_total_current page = series_sum (Current_Value_USD <$> df page)
  ∧ page_total_invested page ≠ 0
  ∧ page_total_performance page =
      (page_total_current page / page_total_invested page - 1) * float 100.
Proof.
  unfold main_with. destruct (df_empty _); [done|]. intros H.
  apply outcome_bind_Ok in H as (rows & Hrows%for_append_outcome & H).
  apply outcome_bind_Ok in H as (perf & [Hne ->]%pct_change_Ok & [= <-]).
  by cbn.
Qed.
End hk_page.

(** ** Totals of the overview *)

Section overview_totals.
Import dashboard_general.
Context (portfolio_hk portfolio_usa : list string).
Context (shares_owned_hk shares_owned_usa : gmap string Qc).
Context (purchase_prices_hk purchase_prices_usa : gmap string Qc).
Context (current_prices_hk current_prices_usa : DataFrame).
Context (fx_rate_hkd_to_usd : Qc).

Local Abbreviation body :=
  (calculate_body portfolio_hk portfolio_usa shares_owned_hk shares_owned_usa
     purchase_prices_hk purchase_prices_usa current_prices_hk
     current_prices_usa fx_rate_hkd_to_usd).
Local Abbreviation invested_hk :=
  (invested_hk_usd shares_owned_hk purchase_prices_hk fx_rate_hkd_to_usd).
Local Abbreviation invested_us :=
  (invested_usa shares_owned_usa purchase_prices_usa).
Local Abbreviation current_hk :=
  (current_value_hk_usd shares_owned_hk purchase_prices_hk current_prices_hk
     fx_rate_hkd_to_usd).
Local Abbreviation current_us :=
  (current_value_usa shares_owned_usa purchase_prices_usa current_prices_usa).

Lemma calculate_body_Ok m :
  outcome body = Ok m →
  ∃ inv_hk cur_hk inv_usa cur_usa,
    Forall2 (λ t v, outcome (invested_hk t) = Ok v) portfolio_hk inv_hk
    ∧ Forall2 (λ t v, outcome (current_hk t) = Ok v) portfolio_hk cur_hk
    ∧ Forall2 (λ t v, outcome (invested_us t) = Ok v) portfolio_usa inv_usa
    ∧ Forall2 (λ t v, outcome (current_us t) = Ok v) portfolio_usa cur_usa
    ∧ outcome (performance_of (vsum cur_hk) (series_sum inv_hk))
        = Ok (performance_hk m)
    ∧ outcome (performance_of (vsum cur_usa) (series_sum inv_usa))
        = Ok (performance_usa m)
    ∧ total_invested m = Num (series_sum inv_hk + series_sum inv_usa)
    ∧ total_current_hk m = vsum cur_hk
    ∧ total_current_usa m = vsum cur_usa
    ∧ total_current m = vadd (vsum cur_hk) (vsum cur_usa).
Proof.
  unfold calculate_body. intros H.
  apply outcome_bind_Ok in H as (ih & (inv_hk & Hih & ->)%sum_gen_outcome & H).
  apply outcome_bind_Ok in H as (ch & Hch & H).
  apply (for_loop_add_outcome current_hk) in Hch as (cur_hk & Hch & ->);
    [|apply add_current_hk_term].
  apply outcome_bind_Ok in H as (iu & (inv_usa & Hiu & ->)%sum_gen_outcome & H).
  apply outcome_bind_Ok in H as (cu & Hcu & H).
  apply (for_loop_add_outcome current_us) in Hcu as (cur_usa & Hcu & ->);
    [|apply add_current_usa_term].
  rewrite !vadd_0_l in H.
  apply outcome_bind_Ok in H as (ph & Hph & H).
  apply outcome_bind_Ok in H as (pu & Hpu & [= <-]). cbn.
  exists inv_hk, cur_hk, inv_usa, cur_usa. by split_and!.
Qed.
End overview_totals.

(** ** Aggregates are sums of per-ticker values *)



(** ** The aggregate performance is the ratio of the aggregates *)

(** Claim C3.  On the USA page and on the HK page, whenever the aggregate
    invested value is positive, the aggregate performance is
    (sum of the current values / sum of the invested values - 1) * 100; and
    there are portfolios (the two-ticker example, on either page) for which
    this differs from the arithmetic mean of the per-ticker percentages. *)
Theorem aggregate_performance_is_ratio_of_aggregates
    (portfolio : list string) (shares_owned purchase_prices : gmap string Qc)
    (adj_close fx_data : result DataFrame) :
  (∀ page,
     outcome (dashboard_usa.main portfolio shares_owned purchase_prices
                adj_close) = Ok (Some page) →
     0 < page_total_invested page →
     page_total_performance page
     = (series_sum (Current_Value_USD <$> df page)
        / series_sum (Invested_Value_USD <$> df page) - 1) * float 100)
  ∧ (∀ page,
       outcome (dashboard_hk.main portfolio shares_owned purchase_prices
                  adj_close fx_data) = Ok (Some page) →
       0 < page_total_invested page →
       page_total_performance page
       = (series_sum (Current_Value_USD <$> df page)
          / series_sum (Invested_Value_USD <$> df page) - 1) * float 100)
  ∧ (∃ page,
       outcome (dashboard_usa.main example.portfolio example.shares_owned
                  example.purchase_prices (Ok example.quotes)) = Ok (Some page)
       ∧ 0 < page_total_invested page
       ∧ page_total_performance page ≠ mean (Performance_pct <$> df page))
  ∧ (∃ page,
       outcome (dashboard_hk.main example.portfolio example.shares_owned
                  example.purchase_prices (Ok example.quotes)
                  (Ok example.hkd_quote)) = Ok (Some page)
       ∧ 0 < page_total_invested page
       ∧ page_total_performance page ≠ mean (Performance_pct <$> df page)).
Proof.
  split_and!.
  - intros page H Hpos.
    apply usa_main_Ok in H as (_ & <- & <- & ->).
    by rewrite bool_decide_eq_true_2.
  - intros page H _. by apply hk_main_with_Ok in H as (_ & <- & <- & _ & ->).
  - eexists. split; [vm_compute; reflexivity|]. split; [by vm_compute|].
    intros H. by apply (f_equal this) in H.
  - eexists. split; [vm_compute; reflexivity|]. split; [by vm_compute|].
    intros H. by apply (f_equal this) in H.
Qed.

Lemma aggregate_performance_is_ratio_of_aggregates_witness :
  (∃ page,
     outcome (dashboard_usa.main example.portfolio example.shares_owned
                example.purchase_prices (Ok example.quotes)) = Ok (Some page)
     ∧ 0 < page_total_invested page
     ∧ page_total_performance page = float 30)
  ∧ (∃ page,
       outcome (dashboard_hk.main example.portfolio example.shares_owned
                  example.purchase_prices (Ok example.quotes)
                  (Ok example.hkd_quote)) = Ok (Some page)
       ∧ 0 < page_total_invested page
       ∧ page_total_performance page = float 30).
Proof.
  pose proof (aggregate_performance_is_ratio_of_aggregates
                example.portfolio example.shares_owned example.purchase_prices
                (Ok example.quotes) (Ok example.hkd_quote))
    as (Husa & Hhk & _).
  split.
  - eexists. split; [vm_compute; reflexivity|].
    split; [vm_compute; reflexivity|].
    etrans; [eapply Husa; vm_compute; reflexivity|].
    apply Qc_is_canon. vm_compute; reflexivity.
  - eexists. split; [vm_compute; reflexivity|].
    split; [vm_compute; reflexivity|].
    etrans; [eapply Hhk; vm_compute; reflexivity|].
    apply Qc_is_canon. vm_compute; reflexivity.
Defined.

(** ** Values and performance of one holding *)

Section detail_page.
Import dashboard_detail.
Context (positions : gmap string (list position)).


End detail_page.



(** ** The error path of the overview *)

(** Claim C7.  Whatever exception the body of [calculate_portfolio_metrics]
    raises, the function does not propagate it: it shows the error message
    built from the exception, after the messages already shown, and returns
    the default dict, whose six entries are 0.  The function never raises. *)
Theorem unexpected_exception_gives_default_metrics
    (portfolio_hk portfolio_usa : list string)
    (shares_owned_hk shares_owned_usa : gmap string Qc)
    (purchase_prices_hk purchase_prices_usa : gmap string Qc)
    (current_prices_hk current_prices_usa : DataFrame)
    (fx_rate_hkd_to_usd : Qc) :
  (∀ log e,
     dashboard_general.calculate_body
       portfolio_hk portfolio_usa shares_owned_hk shares_owned_usa
       purchase_prices_hk purchase_prices_usa current_prices_hk
       current_prices_usa fx_rate_hkd_to_usd = (log, Raise e) →
     dashboard_general.calculate_portfolio_metrics
       portfolio_hk portfolio_usa shares_owned_hk shares_owned_usa
       purchase_prices_hk purchase_prices_usa current_prices_hk
       current_prices_usa fx_rate_hkd_to_usd
     = (log ++ [st_error ("Error calculating portfolio metrics: "
                          +:+ exn_str e)],
        Ok dashboard_general.default_metrics))
  ∧ (∃ m,
       outcome (dashboard_general.calculate_portfolio_metrics
                  portfolio_hk portfolio_usa shares_owned_hk shares_owned_usa
                  purchase_prices_hk purchase_prices_usa current_prices_hk
                  current_prices_usa fx_rate_hkd_to_usd) = Ok m)
  ∧ dashboard_general.default_metrics
    = dashboard_general.Metrics (Num 0) (Num 0) (Num 0) (Num 0) (Num 0) (Num 0).
Proof.
  split_and!.
  - intros log e H. unfold dashboard_general.calculate_portfolio_metrics.
    by rewrite (try_except_Exception_Raise _ _ _ _ H).
  - apply try_except_Exception_total. intros e.
    by exists dashboard_general.default_metrics.
  - done.
Qed.

Lemma unexpected_exception_gives_default_metrics_witness :
  dashboard_general.calculate_body
    example.portfolio example.portfolio_with_unknown
    example.shares_owned example.shares_owned
    example.purchase_prices example.purchase_prices
    example.quotes_without_BBB example.quotes (float 0.128)
  = ([dashboard_general.price_warning "BBB"], Raise (Exn KeyError "'CCC'"))
  ∧ dashboard_general.calculate_portfolio_metrics
      example.portfolio example.portfolio_with_unknown
      example.shares_owned example.shares_owned
      example.purchase_prices example.purchase_prices
      example.quotes_without_BBB example.quotes (float 0.128)
    = ([dashboard_general.price_warning "BBB";
        st_error "Error calculating portfolio metrics: 'CCC'"],
       Ok dashboard_general.default_metrics).
Proof.
  assert (dashboard_general.calculate_body
            example.portfolio example.portfolio_with_unknown
            example.shares_owned example.shares_owned
            example.purchase_prices example.purchase_prices
            example.quotes_without_BBB example.quotes (float 0.128)
          = ([dashboard_general.price_warning "BBB"],
             Raise (Exn KeyError "'CCC'"))) as Hbody
    by (vm_compute; reflexivity).
  split; [exact Hbody|].
  exact (proj1 (unexpected_exception_gives_default_metrics
                  example.portfolio example.portfolio_with_unknown
                  example.shares_owned example.shares_owned
                  example.purchase_prices example.purchase_prices
                  example.quotes_without_BBB example.quotes (float 0.128))
               _ _ Hbody).
Defined.

(** ** The Total Return metric *)

(** Claim C10.  The Total Return of the overview is
    (total_current / total_invested - 1) * 100 taken from the metrics dict
    (a [Series] entry summed first) with no test of the divisor: it has a
    value exactly when total_invested is not 0, and the default dict of the
    error path, as any dict returned after an exception, makes the division
    fail. *)
Theorem total_return_defined_iff_invested_nonzero
    (portfolio_hk portfolio_usa : list string)
    (shares_owned_hk shares_owned_usa : gmap string Qc)
    (purchase_prices_hk purchase_prices_usa : gmap string Qc)
    (current_prices_hk current_prices_usa : DataFrame)
    (fx_rate_hkd_to_usd : Qc) (m : dashboard_general.metrics) :
  (sum_if_series (dashboard_general.total_invested m) ≠ 0 →
   dashboard_general.total_return m
   = mret ((sum_if_series (dashboard_general.total_current m)
            / sum_if_series (dashboard_general.total_invested m) - 1)
           * float 100))
  ∧ (sum_if_series (dashboard_general.total_invested m) = 0 →
     dashboard_general.total_return m
     = raise (Exn ZeroDivisionError "division by zero"))
  ∧ dashboard_general.total_return dashboard_general.default_metrics
    = raise (Exn ZeroDivisionError "division by zero")
  ∧ (∀ e,
       outcome (dashboard_general.calculate_body
                  portfolio_hk portfolio_usa shares_owned_hk shares_owned_usa
                  purchase_prices_hk purchase_prices_usa current_prices_hk
                  current_prices_usa fx_rate_hkd_to_usd) = Raise e →
       ∃ fallback,
         outcome (dashboard_general.calculate_portfolio_metrics
                    portfolio_hk portfolio_usa shares_owned_hk
                    shares_owned_usa purchase_prices_hk purchase_prices_usa
                    current_prices_hk current_prices_usa fx_rate_hkd_to_usd)
           = Ok fallback
         ∧ dashboard_general.total_return fallback
           = raise (Exn ZeroDivisionError "division by zero")).
Proof.
  split_and!.
  - intros Hne. unfold dashboard_general.total_return, div.
    by rewrite bool_decide_eq_false_2.
  - intros Heq. unfold dashboard_general.total_return, div.
    by rewrite bool_decide_eq_true_2.
  - done.
  - intros e He. exists dashboard_general.default_metrics. split; [|done].
    unfold dashboard_general.calculate_portfolio_metrics.
    by erewrite try_except_Exception_Raise by apply M_eta_outcome, He.
Qed.

Lemma total_return_defined_iff_invested_nonzero_witness :
  dashboard_general.total_return
    (dashboard_general.Metrics (Num (float 300)) (Num (float 100))
       (Num (float 290)) (Num (float 390)) (Num 0) (Num (float 45)))
  = mret (float 30)
  ∧ dashboard_general.total_return
      (dashboard_general.Metrics (Num 0) EmptySeries (Num 0) EmptySeries
         (Num 0) (Num 0))
    = raise (Exn ZeroDivisionError "division by zero")
  ∧ ∃ fallback,
      outcome (dashboard_general.calculate_portfolio_metrics
                 example.portfolio example.portfolio_with_unknown
                 example.shares_owned example.shares_owned
                 example.purchase_prices example.purchase_prices
                 example.quotes_without_BBB example.quotes (float 0.128))
        = Ok fallback
      ∧ dashboard_general.total_return fallback
        = raise (Exn ZeroDivisionError "division by zero").
Proof.
  split_and!.
  - etrans.
    + apply (proj1 (total_return_defined_iff_invested_nonzero
                      [] [] ∅ ∅ ∅ ∅ ∅ ∅ 0 _)).
      cbn. intros H. by apply (f_equal this) in H.
    + unfold mret, M_ret. do 2 f_equal. apply Qc_is_canon.
      vm_compute; reflexivity.
  - by apply (proj1 (proj2 (total_return_defined_iff_invested_nonzero
                              [] [] ∅ ∅ ∅ ∅ ∅ ∅ 0 _))).
  - eapply (total_return_defined_iff_invested_nonzero
              example.portfolio example.portfolio_with_unknown
              example.shares_owned example.shares_owned
              example.purchase_prices example.purchase_prices
              example.quotes_without_BBB example.quotes (float 0.128)
              dashboard_general.default_metrics).
    vm_compute; reflexivity.
Defined.

(** ** Where the zero-divisor guard is, and where it is not *)

(** The per-market performance of the overview and both divisions of the
    USA page test the divisor first. *)
Lemma overview_performance_guarded current :
  dashboard_general.performance_of current 0 = mret (Num 0).
Proof. unfold dashboard_general.performance_of. by rewrite bool_decide_eq_true_2. Qed.

Lemma usa_row_performance_guarded shares_owned purchase_prices prices ticker row :
  outcome (dashboard_usa.portfolio_row shares_owned purchase_prices prices ticker)
    = Ok row →
  Invested_Value_USD row = 0 → Performance_pct row = 0.
Proof.
  intros (s & p & c & _ & _ & _ & ->)%usa_portfolio_row_Ok. cbn. intros ->.
  by rewrite bool_decide_eq_false_2.
Qed.

Lemma usa_total_performance_guarded portfolio shares_owned purchase_prices
    adj_close page :
  outcome (dashboard_usa.main portfolio shares_owned purchase_prices adj_close)
    = Ok (Some page) →
  page_total_invested page = 0 → page_total_performance page = 0.
Proof.
  intros (_ & _ & _ & ->)%usa_main_Ok. intros ->.
  by rewrite bool_decide_eq_false_2.
Qed.


(** ** A ticker without a current price *)

(** The overview: a ticker that has no column in the price frame is valued
    at its purchase price, with a warning. *)
Lemma overview_missing_price_falls_back shares_owned purchase_prices
    (prices : DataFrame) fx ticker shares purchase_price :
  prices !! ticker = None →
  shares_owned !! ticker = Some shares →
  purchase_prices !! ticker = Some purchase_price →
  dashboard_general.current_value_hk_usd shares_owned purchase_prices prices
    fx ticker
  = ([dashboard_general.price_warning ticker],
     Ok (Num (shares * purchase_price * fx)))
  ∧ dashboard_general.current_value_usa shares_owned purchase_prices prices
      ticker
    = ([dashboard_general.price_warning ticker],
       Ok (Num (shares * purchase_price))).
Proof.
  intros Hprice Hs Hp.
  unfold dashboard_general.current_value_hk_usd,
    dashboard_general.current_value_usa, dashboard_general.current_price_of,
    dashboard_general.invested_hk_usd, dashboard_general.invested_usa,
    df_getitem, dict_get.
  by rewrite Hprice, Hs, Hp.
Qed.

(** Claim C2, at the input where the code departs from it.  With BBB absent
    from a price frame that quotes AAA, the USA page shows no message, takes 0
    as the current price of BBB and reports a performance of -100 for it, and
    the HK page raises [KeyError]; the overview, on the same data, warns and
    values BBB at its purchase price. *)
Theorem missing_price_on_market_pages :
  messages (dashboard_usa.main example.portfolio example.shares_owned
              example.purchase_prices (Ok example.quotes_without_BBB)) = []
  ∧ observe (λ page, (λ row, (Ticker row, Current_Price_USD row,
                              Current_Value_USD row, Performance_pct row))
                     <$> df page)
      (dashboard_usa.main example.portfolio example.shares_owned
         example.purchase_prices (Ok example.quotes_without_BBB))
    = Ok (Some [("AAA", float 150, float 300, float 50);
                ("BBB", 0, 0, float (-100))])
  ∧ dashboard_hk.main example.portfolio example.shares_owned
      example.purchase_prices (Ok example.quotes_without_BBB)
      (Ok example.hkd_quote)
    = raise (Exn KeyError "'BBB'")
  ∧ dashboard_general.current_value_usa example.shares_owned
      example.purchase_prices example.quotes_without_BBB "BBB"
    = ([dashboard_general.price_warning "BBB"], Ok (Num (float 100))).
Proof.
  split_and!; evaluate.
Qed.

(** ** The fallback FX rate *)

(** The overview uses 0.128 whenever its [get_fx_rate] has no rate: the
    fetch raised, the frame is empty, or it has no [Adj Close] column. *)
Lemma overview_fx_fallback (fx_data : result DataFrame) :
  match fx_data with
  | Raise _ => True
  | Ok frame => df_empty frame = true ∨ frame !! "Adj Close" = None
  end →
  dashboard_general.get_fx_rate fx_data = None
  ∧ dashboard_general.fx_rate_hkd_to_usd_of fx_data = float 0.128.
Proof.
  unfold dashboard_general.fx_rate_hkd_to_usd_of, dashboard_general.get_fx_rate.
  destruct fx_data as [frame|e]; [|done]. cbn.
  intros [->| Hcol]; [done|].
  unfold df_contains. rewrite Hcol.
  rewrite bool_decide_eq_false_2 by (by intros [? ?]).
  by rewrite andb_false_r.
Qed.

(** The HK page uses 0.128 when the fetch raised, and the inverse of 7.85
    when the fetched frame is empty. *)
Lemma hk_fx_fallback (fx_data : result DataFrame) :
  match fx_data with
  | Raise _ => dashboard_hk.get_fx_rate fx_data = float 0.128
  | Ok frame =>
      df_empty frame = true →
      dashboard_hk.get_fx_rate fx_data = 1 / float 7.85
  end.
Proof.
  unfold dashboard_hk.get_fx_rate. destruct fx_data as [frame|e]; [|done].
  cbn. by intros ->.
Qed.

(** Claim C5, at the input where the code departs from it.  When the fetch
    of [HKD=X] returns an empty frame, the HK page converts with 1 / 7.85 =
    20/157, which is not 0.128 = 16/125; the overview converts with 0.128 on
    the same input, and both use 0.128 when the fetch raises. *)
Theorem hk_page_empty_fx_frame_rate :
  dashboard_hk.get_fx_rate (Ok empty_frame) = Q2Qc (20 # 157)
  ∧ dashboard_hk.get_fx_rate (Ok empty_frame) ≠ float 0.128
  ∧ dashboard_general.fx_rate_hkd_to_usd_of (Ok empty_frame) = float 0.128
  ∧ (∀ e, dashboard_hk.get_fx_rate (Raise e) = float 0.128
          ∧ dashboard_general.fx_rate_hkd_to_usd_of (Raise e) = float 0.128).
Proof.
  split_and!.
  - apply Qc_is_canon. vm_compute; reflexivity.
  - intros H. by apply (f_equal this) in H.
  - done.
  - done.
Qed.

(** ** The FX rate cancels in the HK performance *)

Section fmap.
Context {A B C : Type}.
Implicit Types (c : M A) (f : A → B).




End fmap.






Section fx_invariance.
Context (shares_owned_hk purchase_prices_hk : gmap string Qc).
Context (current_prices_hk : DataFrame).




End fx_invariance.


Section fx_invariance_pages.
Context (portfolio_hk portfolio_usa : list string).
Context (shares_owned_hk shares_owned_usa : gmap string Qc).
Context (purchase_prices_hk purchase_prices_usa : gmap string Qc).
Context (current_prices_hk current_prices_usa : DataFrame).



End fx_invariance_pages.



(** ** HK amounts are converted term by term *)

Section hk_terms.
Context (shares_owned_hk purchase_prices_hk : gmap string Qc).
Context (current_prices_hk : DataFrame) (fx_rate_hkd_to_usd : Qc).

Lemma invested_hk_usd_Ok ticker v :
  outcome (dashboard_general.invested_hk_usd shares_owned_hk
             purchase_prices_hk fx_rate_hkd_to_usd ticker) = Ok v →
  ∃ shares purchase_price,
    shares_owned_hk !! ticker = Some shares
    ∧ purchase_prices_hk !! ticker = Some purchase_price
    ∧ v = shares * purchase_price * fx_rate_hkd_to_usd.
Proof.
  unfold dashboard_general.invested_hk_usd. intros H.
  apply outcome_bind_Ok in H as (s & Hs%dict_get_outcome & H).
  apply outcome_bind_Ok in H as (p & Hp%dict_get_outcome & [= <-]).
  by exists s, p.
Qed.

Lemma current_price_of_outcome ticker :
  outcome (dashboard_general.current_price_of current_prices_hk ticker)
  = match current_prices_hk !! ticker with
    | None => Raise (Exn KeyError (repr ticker))
    | Some column =>
        match list.last column with
        | Some last_row => Ok (Num last_row)
        | None => Ok EmptySeries
        end
    end.
Proof.
  unfold dashboard_general.current_price_of, df_getitem, dict_get.
  destruct (current_prices_hk !! ticker) as [column|]; [|done].
  rewrite mret_bind. case_bool_decide as Hcol.
  - unfold iloc_last. destruct (list.last column) eqn:Hlast; [done|].
    by apply last_None in Hlast.
  - by subst.
Qed.

End hk_terms.



(** * Further properties of the pages *)

(** A closed decidable proposition, settled by evaluating its decision. *)
Ltac decide_closed :=
  match goal with
  | |- ?P =>
      let d := constr:(_ : Decision P) in
      apply (@bool_decide_unpack P d); vm_compute; exact I
  end.

(** ** Loops whose iterations do not raise *)

Lemma bind_pair_Ok {A B} (log : list message) (a : A) (k : A → M B) :
  (log, Ok a) ≫= k = (log ++ messages (k a), outcome (k a)).
Proof. by apply bind_Ok. Qed.

Lemma sum_gen_from_pure {X} (f : X → M Qc) (g : X → Qc) (l : list X) (acc : Qc) :
  Forall (λ x, f x = mret (g x)) l →
  sum_gen_from acc f l = mret (acc + series_sum (g <$> l)).
Proof.
  intros Hl. revert acc. induction Hl as [|x l Hx _ IH]; intros acc.
  - cbn. unfold mret, M_ret, series_sum. cbn. do 2 f_equal. ring.
  - cbn [sum_gen_from]. rewrite Hx, mret_bind, IH.
    unfold mret, M_ret. do 2 f_equal.
    rewrite fmap_cons. unfold series_sum. cbn [foldr]. ring.
Qed.

Lemma for_loop_pure {S X} (body : S → X → M S) (w : X → list message)
    (g : S → X → S) (l : list X) (s : S) :
  Forall (λ x, ∀ s, body s x = (w x, Ok (g s x))) l →
  for_loop body s l = (mjoin (w <$> l), Ok (foldl g s l)).
Proof.
  intros Hl. revert s. induction Hl as [|x l Hx _ IH]; intros s; [done|].
  cbn [for_loop]. rewrite Hx, bind_pair_Ok, IH. done.
Qed.

Lemma sum_gen_from_Raise {X} (f : X → M Qc) (l : list X) (acc : Qc) e :
  outcome (sum_gen_from acc f l) = Raise e →
  ∃ x, x ∈ l ∧ outcome (f x) = Raise e.
Proof.
  revert acc. induction l as [|x l IH]; intros acc; [done|].
  cbn [sum_gen_from]. rewrite outcome_bind.
  destruct (outcome (f x)) as [v|e'] eqn:Hx.
  - intros (y & Hy & He)%IH. exists y. split; [by right|done].
  - intros [= <-]. exists x. split; [by left|done].
Qed.

Lemma for_loop_Raise {S X} (body : S → X → M S) (l : list X) (s : S) e :
  outcome (for_loop body s l) = Raise e →
  ∃ s' x, x ∈ l ∧ outcome (body s' x) = Raise e.
Proof.
  revert s. induction l as [|x l IH]; intros s; [done|].
  cbn [for_loop]. rewrite outcome_bind.
  destruct (outcome (body s x)) as [s'|e'] eqn:Hx.
  - intros (s'' & y & Hy & He)%IH. exists s'', y. split; [by right|done].
  - intros [= <-]. exists s, x. split; [by left|done].
Qed.

Lemma foldl_vadd_terms {X} (term : X → val) (l : list X) (s : val) :
  foldl (λ s x, vadd s (term x)) s l = vadd s (vsum (term <$> l)).
Proof.
  rewrite <-foldl_vadd. revert s.
  induction l as [|x l IH]; intros s; [done|]. cbn. apply IH.
Qed.

Lemma mjoin_cons {A} (x : list A) (l : list (list A)) :
  mjoin (x :: l) = x ++ mjoin l.
Proof. done. Qed.

Lemma unquoted_warnings (prices : DataFrame) (portfolio : list string) :
  mjoin ((λ ticker, match prices !! ticker with
                    | Some _ => []
                    | None => [dashboard_general.price_warning ticker]
                    end) <$> portfolio)
  = dashboard_general.price_warning <$> unquoted prices portfolio.
Proof.
  unfold unquoted. induction portfolio as [|t l IH]; [done|].
  rewrite fmap_cons, filter_cons, mjoin_cons, IH.
  destruct (prices !! t) eqn:Ht; by case_decide.
Qed.

(** ** The overview with complete dicts *)

Section overview_closed_form.
Context (shares_owned purchase_prices : gmap string Qc).
Context (prices : DataFrame) (fx : Qc).

Lemma invested_hk_usd_complete ticker :
  is_Some (shares_owned !! ticker) → is_Some (purchase_prices !! ticker) →
  dashboard_general.invested_hk_usd shares_owned purchase_prices fx ticker
  = mret (hk_invested_term shares_owned purchase_prices fx ticker).
Proof.
  intros [s Hs] [p Hp].
  unfold dashboard_general.invested_hk_usd, hk_invested_term, entry, dict_get.
  by rewrite Hs, Hp.
Qed.

Lemma invested_usa_complete ticker :
  is_Some (shares_owned !! ticker) → is_Some (purchase_prices !! ticker) →
  dashboard_general.invested_usa shares_owned purchase_prices ticker
  = mret (usa_invested_term shares_owned purchase_prices ticker).
Proof.
  intros [s Hs] [p Hp].
  unfold dashboard_general.invested_usa, usa_invested_term, entry, dict_get.
  by rewrite Hs, Hp.
Qed.

Lemma current_price_of_quoted ticker column :
  prices !! ticker = Some column →
  dashboard_general.current_price_of prices ticker = mret (price_val column).
Proof.
  intros Hcol.
  unfold dashboard_general.current_price_of, df_getitem, dict_get, price_val.
  rewrite Hcol, mret_bind. case_bool_decide as Hne; [|by subst].
  unfold iloc_last. destruct (list.last column) eqn:Hlast; [done|].
  by apply last_None in Hlast.
Qed.

Lemma current_price_of_unquoted ticker :
  prices !! ticker = None →
  dashboard_general.current_price_of prices ticker
  = raise (Exn KeyError (repr ticker)).
Proof.
  intros Hcol.
  unfold dashboard_general.current_price_of, df_getitem, dict_get.
  by rewrite Hcol.
Qed.

Lemma add_current_hk_complete total ticker :
  is_Some (shares_owned !! ticker) → is_Some (purchase_prices !! ticker) →
  dashboard_general.add_current_hk shares_owned purchase_prices prices fx
    total ticker
  = (match prices !! ticker with
     | Some _ => []
     | None => [dashboard_general.price_warning ticker]
     end,
     Ok (vadd total
           (hk_current_term shares_owned purchase_prices prices fx ticker))).
Proof.
  intros Hs Hp. unfold dashboard_general.add_current_hk, hk_current_term.
  rewrite invested_hk_usd_complete by done.
  destruct (prices !! ticker) as [column|] eqn:Hcol.
  - rewrite (current_price_of_quoted _ column), mret_bind by done.
    destruct Hs as [s Hs]. unfold dict_get, entry. by rewrite Hs.
  - by rewrite current_price_of_unquoted.
Qed.

Lemma add_current_usa_complete total ticker :
  is_Some (shares_owned !! ticker) → is_Some (purchase_prices !! ticker) →
  dashboard_general.add_current_usa shares_owned purchase_prices prices
    total ticker
  = (match prices !! ticker with
     | Some _ => []
     | None => [dashboard_general.price_warning ticker]
     end,
     Ok (vadd total
           (usa_current_term shares_owned purchase_prices prices ticker))).
Proof.
  intros Hs Hp. unfold dashboard_general.add_current_usa, usa_current_term.
  rewrite invested_usa_complete by done.
  destruct (prices !! ticker) as [column|] eqn:Hcol.
  - rewrite (current_price_of_quoted _ column), mret_bind by done.
    destruct Hs as [s Hs]. unfold dict_get, entry. by rewrite Hs.
  - by rewrite current_price_of_unquoted.
Qed.

Lemma total_invested_hk_complete portfolio :
  complete portfolio shares_owned purchase_prices →
  sum_gen (dashboard_general.invested_hk_usd shares_owned purchase_prices fx)
    portfolio
  = mret (series_sum (hk_invested_term shares_owned purchase_prices fx
                        <$> portfolio)).
Proof.
  intros Hc. unfold sum_gen.
  rewrite (sum_gen_from_pure _
             (hk_invested_term shares_owned purchase_prices fx)).
  - unfold mret, M_ret. do 2 f_equal. ring.
  - eapply Forall_impl; [|exact Hc]. intros t [? ?].
    by apply invested_hk_usd_complete.
Qed.

Lemma total_invested_usa_complete portfolio :
  complete portfolio shares_owned purchase_prices →
  sum_gen (dashboard_general.invested_usa shares_owned purchase_prices)
    portfolio
  = mret (series_sum (usa_invested_term shares_owned purchase_prices
                        <$> portfolio)).
Proof.
  intros Hc. unfold sum_gen.
  rewrite (sum_gen_from_pure _ (usa_invested_term shares_owned purchase_prices)).
  - unfold mret, M_ret. do 2 f_equal. ring.
  - eapply Forall_impl; [|exact Hc]. intros t [? ?].
    by apply invested_usa_complete.
Qed.

Lemma total_current_hk_complete portfolio :
  complete portfolio shares_owned purchase_prices →
  for_loop (dashboard_general.add_current_hk shares_owned purchase_prices
              prices fx) (Num 0) portfolio
  = (dashboard_general.price_warning <$> unquoted prices portfolio,
     Ok (vsum (hk_current_term shares_owned purchase_prices prices fx
                 <$> portfolio))).
Proof.
  intros Hc.
  erewrite for_loop_pure; cycle 1.
  { eapply Forall_impl; [|exact Hc]. intros t [? ?] s.
    by apply add_current_hk_complete. }
  by rewrite unquoted_warnings, foldl_vadd_terms, vadd_0_l.
Qed.

Lemma total_current_usa_complete portfolio :
  complete portfolio shares_owned purchase_prices →
  for_loop (dashboard_general.add_current_usa shares_owned purchase_prices
              prices) (Num 0) portfolio
  = (dashboard_general.price_warning <$> unquoted prices portfolio,
     Ok (vsum (usa_current_term shares_owned purchase_prices prices
                 <$> portfolio))).
Proof.
  intros Hc.
  erewrite for_loop_pure; cycle 1.
  { eapply Forall_impl; [|exact Hc]. intros t [? ?] s.
    by apply add_current_usa_complete. }
  by rewrite unquoted_warnings, foldl_vadd_terms, vadd_0_l.
Qed.
End overview_closed_form.

Lemma performance_of_val (current : val) (invested : Qc) :
  dashboard_general.performance_of current invested
  = mret (performance_val current invested).
Proof.
  unfold dashboard_general.performance_of, performance_val.
  case_bool_decide as Hz; [done|].
  destruct current as [c|]; [|done]. unfold vdiv, div.
  by rewrite bool_decide_eq_false_2.
Qed.

Lemma calculate_body_complete
    (portfolio_hk portfolio_usa : list string)
    (shares_owned_hk shares_owned_usa : gmap string Qc)
    (purchase_prices_hk purchase_prices_usa : gmap string Qc)
    (current_prices_hk current_prices_usa : DataFrame)
    (fx_rate_hkd_to_usd : Qc) :
  complete portfolio_hk shares_owned_hk purchase_prices_hk →
  complete portfolio_usa shares_owned_usa purchase_prices_usa →
  dashboard_general.calculate_body
    portfolio_hk portfolio_usa shares_owned_hk shares_owned_usa
    purchase_prices_hk purchase_prices_usa current_prices_hk
    current_prices_usa fx_rate_hkd_to_usd
  = (dashboard_general.price_warning
       <$> (unquoted current_prices_hk portfolio_hk
            ++ unquoted current_prices_usa portfolio_usa),
     Ok (metrics_closed_form
           portfolio_hk portfolio_usa shares_owned_hk shares_owned_usa
           purchase_prices_hk purchase_prices_usa current_prices_hk
           current_prices_usa fx_rate_hkd_to_usd)).
Proof.
  intros Hhk Husa. unfold dashboard_general.calculate_body.
  rewrite total_invested_hk_complete, mret_bind by done.
  rewrite total_current_hk_complete, bind_pair_Ok by done.
  rewrite total_invested_usa_complete, mret_bind by done.
  rewrite total_current_usa_complete, bind_pair_Ok by done.
  rewrite !performance_of_val, !mret_bind.
  cbn. by rewrite app_nil_r, fmap_app.
Qed.

Lemma calculate_portfolio_metrics_complete
    (portfolio_hk portfolio_usa : list string)
    (shares_owned_hk shares_owned_usa : gmap string Qc)
    (purchase_prices_hk purchase_prices_usa : gmap string Qc)
    (current_prices_hk current_prices_usa : DataFrame)
    (fx_rate_hkd_to_usd : Qc) :
  complete portfolio_hk shares_owned_hk purchase_prices_hk →
  complete portfolio_usa shares_owned_usa purchase_prices_usa →
  dashboard_general.calculate_portfolio_metrics
    portfolio_hk portfolio_usa shares_owned_hk shares_owned_usa
    purchase_prices_hk purchase_prices_usa current_prices_hk
    current_prices_usa fx_rate_hkd_to_usd
  = (dashboard_general.price_warning
       <$> (unquoted current_prices_hk portfolio_hk
            ++ unquoted current_prices_usa portfolio_usa),
     Ok (metrics_closed_form
           portfolio_hk portfolio_usa shares_owned_hk shares_owned_usa
           purchase_prices_hk purchase_prices_usa current_prices_hk
           current_prices_usa fx_rate_hkd_to_usd)).
Proof.
  intros Hhk Husa. unfold dashboard_general.calculate_portfolio_metrics.
  by rewrite calculate_body_complete.
Qed.

(** With a share count and a purchase price for every portfolio ticker the
    [except] branch of [calculate_portfolio_metrics] is never taken: the
    function shows one warning for each ticker that has no column in its
    price frame (the HK tickers first, each market in portfolio order), no
    error, and returns totals that are the sums of the per-ticker terms: the
    shares times the last price of a quoted ticker, the shares times the
    purchase price of an unquoted one, times the FX rate for HK. *)
Theorem overview_with_complete_dicts
    (portfolio_hk portfolio_usa : list string)
    (shares_owned_hk shares_owned_usa : gmap string Qc)
    (purchase_prices_hk purchase_prices_usa : gmap string Qc)
    (current_prices_hk current_prices_usa : DataFrame)
    (fx_rate_hkd_to_usd : Qc) :
  complete portfolio_hk shares_owned_hk purchase_prices_hk →
  complete portfolio_usa shares_owned_usa purchase_prices_usa →
  ∃ m,
    dashboard_general.calculate_portfolio_metrics
      portfolio_hk portfolio_usa shares_owned_hk shares_owned_usa
      purchase_prices_hk purchase_prices_usa current_prices_hk
      current_prices_usa fx_rate_hkd_to_usd
    = (dashboard_general.price_warning
         <$> (unquoted current_prices_hk portfolio_hk
              ++ unquoted current_prices_usa portfolio_usa),
       Ok m)
    ∧ dashboard_general.total_invested m
      = Num (series_sum (hk_invested_term shares_owned_hk purchase_prices_hk
                           fx_rate_hkd_to_usd <$> portfolio_hk)
             + series_sum (usa_invested_term shares_owned_usa
                             purchase_prices_usa <$> portfolio_usa))
    ∧ dashboard_general.total_current_hk m
      = vsum (hk_current_term shares_owned_hk purchase_prices_hk
                current_prices_hk fx_rate_hkd_to_usd <$> portfolio_hk)
    ∧ dashboard_general.total_current_usa m
      = vsum (usa_current_term shares_owned_usa purchase_prices_usa
                current_prices_usa <$> portfolio_usa)
    ∧ dashboard_general.total_current m
      = vadd (dashboard_general.total_current_hk m)
             (dashboard_general.total_current_usa m).
Proof.
  intros Hhk Husa. eexists. split.
  - by apply calculate_portfolio_metrics_complete.
  - done.
Qed.

Lemma overview_with_complete_dicts_witness :
  ∃ m,
    dashboard_general.calculate_portfolio_metrics
      example.portfolio example.portfolio
      example.shares_owned example.shares_owned
      example.purchase_prices example.purchase_prices
      example.quotes_without_BBB example.quotes (float 0.128)
    = ([dashboard_general.price_warning "BBB"], Ok m)
    ∧ dashboard_general.total_current_hk m = Num (float 51.2).
Proof.
  destruct (overview_with_complete_dicts
              example.portfolio example.portfolio
              example.shares_owned example.shares_owned
              example.purchase_prices example.purchase_prices
              example.quotes_without_BBB example.quotes (float 0.128))
    as (m & Hm & _ & Hch & _); [decide_closed..|].
  exists m. split; [exact Hm|].
  rewrite Hch. evaluate.
Defined.

(** ** What the body of the overview can raise *)

Section overview_exceptions.
Context (shares_owned purchase_prices : gmap string Qc).
Context (prices : DataFrame) (fx : Qc).

Lemma invested_hk_usd_Raise ticker e :
  outcome (dashboard_general.invested_hk_usd shares_owned purchase_prices fx
             ticker) = Raise e →
  (shares_owned !! ticker = None ∨ purchase_prices !! ticker = None)
  ∧ e = Exn KeyError (repr ticker).
Proof.
  unfold dashboard_general.invested_hk_usd, dict_get.
  destruct (shares_owned !! ticker), (purchase_prices !! ticker);
    cbn; naive_solver.
Qed.

Lemma invested_usa_Raise ticker e :
  outcome (dashboard_general.invested_usa shares_owned purchase_prices ticker)
    = Raise e →
  (shares_owned !! ticker = None ∨ purchase_prices !! ticker = None)
  ∧ e = Exn KeyError (repr ticker).
Proof.
  unfold dashboard_general.invested_usa, dict_get.
  destruct (shares_owned !! ticker), (purchase_prices !! ticker);
    cbn; naive_solver.
Qed.

Lemma invested_usa_Ok ticker v :
  outcome (dashboard_general.invested_usa shares_owned purchase_prices ticker)
    = Ok v →
  is_Some (shares_owned !! ticker) ∧ is_Some (purchase_prices !! ticker).
Proof.
  unfold dashboard_general.invested_usa, dict_get.
  destruct (shares_owned !! ticker), (purchase_prices !! ticker);
    cbn; naive_solver.
Qed.

Lemma add_current_hk_Raise total ticker e :
  outcome (dashboard_general.add_current_hk shares_owned purchase_prices
             prices fx total ticker) = Raise e →
  (shares_owned !! ticker = None ∨ purchase_prices !! ticker = None)
  ∧ e = Exn KeyError (repr ticker).
Proof.
  destruct (shares_owned !! ticker) as [s|] eqn:Hs;
    [destruct (purchase_prices !! ticker) as [p|] eqn:Hp|].
  - by rewrite add_current_hk_complete.
  - unfold dashboard_general.add_current_hk,
      dashboard_general.invested_hk_usd, dict_get.
    rewrite Hs, Hp.
    destruct (dashboard_general.current_price_of prices ticker)
      as [log [cp|e']] eqn:Hcp; cbn; [done|].
    pose proof (current_price_of_outcome prices ticker) as Hout.
    rewrite Hcp in Hout. cbn in Hout.
    destruct (prices !! ticker) as [col|];
      [by destruct (list.last col)|].
    injection Hout as ->. cbn. naive_solver.
  - unfold dashboard_general.add_current_hk,
      dashboard_general.invested_hk_usd, dict_get.
    rewrite Hs.
    destruct (dashboard_general.current_price_of prices ticker)
      as [log [cp|e']] eqn:Hcp; cbn; [naive_solver|].
    pose proof (current_price_of_outcome prices ticker) as Hout.
    rewrite Hcp in Hout. cbn in Hout.
    destruct (prices !! ticker) as [col|];
      [by destruct (list.last col)|].
    injection Hout as ->. cbn. naive_solver.
Qed.

Lemma add_current_usa_Raise total ticker e :
  outcome (dashboard_general.add_current_usa shares_owned purchase_prices
             prices total ticker) = Raise e →
  (shares_owned !! ticker = None ∨ purchase_prices !! ticker = None)
  ∧ e = Exn KeyError (repr ticker).
Proof.
  destruct (shares_owned !! ticker) as [s|] eqn:Hs;
    [destruct (purchase_prices !! ticker) as [p|] eqn:Hp|].
  - by rewrite add_current_usa_complete.
  - unfold dashboard_general.add_current_usa,
      dashboard_general.invested_usa, dict_get.
    rewrite Hs, Hp.
    destruct (dashboard_general.current_price_of prices ticker)
      as [log [cp|e']] eqn:Hcp; cbn; [done|].
    pose proof (current_price_of_outcome prices ticker) as Hout.
    rewrite Hcp in Hout. cbn in Hout.
    destruct (prices !! ticker) as [col|];
      [by destruct (list.last col)|].
    injection Hout as ->. cbn. naive_solver.
  - unfold dashboard_general.add_current_usa,
      dashboard_general.invested_usa, dict_get.
    rewrite Hs.
    destruct (dashboard_general.current_price_of prices ticker)
      as [log [cp|e']] eqn:Hcp; cbn; [naive_solver|].
    pose proof (current_price_of_outcome prices ticker) as Hout.
    rewrite Hcp in Hout. cbn in Hout.
    destruct (prices !! ticker) as [col|];
      [by destruct (list.last col)|].
    injection Hout as ->. cbn. naive_solver.
Qed.
End overview_exceptions.

(** The body of [calculate_portfolio_metrics] completes only with complete
    dicts, and the only exception it can raise is the [KeyError] of a
    portfolio ticker that has no share count or no purchase price; the error
    message of the page then names that ticker.  Prices never make it fail. *)
Theorem overview_fails_only_on_missing_dict_entries
    (portfolio_hk portfolio_usa : list string)
    (shares_owned_hk shares_owned_usa : gmap string Qc)
    (purchase_prices_hk purchase_prices_usa : gmap string Qc)
    (current_prices_hk current_prices_usa : DataFrame)
    (fx_rate_hkd_to_usd : Qc) :
  (∀ m,
     outcome (dashboard_general.calculate_body
                portfolio_hk portfolio_usa shares_owned_hk shares_owned_usa
                purchase_prices_hk purchase_prices_usa current_prices_hk
                current_prices_usa fx_rate_hkd_to_usd) = Ok m →
     complete portfolio_hk shares_owned_hk purchase_prices_hk
     ∧ complete portfolio_usa shares_owned_usa purchase_prices_usa)
  ∧ (∀ log e,
       dashboard_general.calculate_body
         portfolio_hk portfolio_usa shares_owned_hk shares_owned_usa
         purchase_prices_hk purchase_prices_usa current_prices_hk
         current_prices_usa fx_rate_hkd_to_usd = (log, Raise e) →
       ∃ ticker,
         (ticker ∈ portfolio_hk
          ∧ (shares_owned_hk !! ticker = None
             ∨ purchase_prices_hk !! ticker = None)
          ∨ ticker ∈ portfolio_usa
            ∧ (shares_owned_usa !! ticker = None
               ∨ purchase_prices_usa !! ticker = None))
         ∧ e = Exn KeyError (repr ticker)
         ∧ dashboard_general.calculate_portfolio_metrics
             portfolio_hk portfolio_usa shares_owned_hk shares_owned_usa
             purchase_prices_hk purchase_prices_usa current_prices_hk
             current_prices_usa fx_rate_hkd_to_usd
           = (log ++ [st_error ("Error calculating portfolio metrics: "
                                +:+ repr ticker)],
              Ok dashboard_general.default_metrics)).
Proof.
  split.
  - intros m H.
    apply calculate_body_Ok in H
      as (inv_hk & cur_hk & inv_usa & cur_usa & Hih & _ & Hiu & _).
    split; unfold complete.
    + eapply Forall2_Forall_l; [exact Hih|].
      apply Forall_forall. intros v _ t (s & p & Hs & Hp & _)%invested_hk_usd_Ok.
      by rewrite Hs, Hp.
    + eapply Forall2_Forall_l; [exact Hiu|].
      apply Forall_forall. by intros v _ t H%invested_usa_Ok.
  - intros log e Hbody.
    assert (∃ ticker,
      (ticker ∈ portfolio_hk
       ∧ (shares_owned_hk !! ticker = None
          ∨ purchase_prices_hk !! ticker = None)
       ∨ ticker ∈ portfolio_usa
         ∧ (shares_owned_usa !! ticker = None
            ∨ purchase_prices_usa !! ticker = None))
      ∧ e = Exn KeyError (repr ticker)) as (t & Ht & ->).
    { apply (f_equal outcome) in Hbody. cbn in Hbody. revert Hbody.
      unfold dashboard_general.calculate_body. rewrite outcome_bind.
      destruct (outcome (sum_gen _ portfolio_hk)) as [ih|e1] eqn:H1.
      2:{ intros [= <-].
          apply sum_gen_from_Raise in H1 as (t & Ht & [? ->]%invested_hk_usd_Raise).
          exists t. auto. }
      rewrite outcome_bind.
      destruct (outcome (for_loop _ _ portfolio_hk)) as [ch|e2] eqn:H2.
      2:{ intros [= <-].
          apply for_loop_Raise
            in H2 as (s & t & Ht & [? ->]%add_current_hk_Raise).
          exists t. auto. }
      rewrite outcome_bind.
      destruct (outcome (sum_gen _ portfolio_usa)) as [iu|e3] eqn:H3.
      2:{ intros [= <-].
          apply sum_gen_from_Raise in H3 as (t & Ht & [? ->]%invested_usa_Raise).
          exists t. auto. }
      rewrite outcome_bind.
      destruct (outcome (for_loop _ _ portfolio_usa)) as [cu|e4] eqn:H4.
      2:{ intros [= <-].
          apply for_loop_Raise
            in H4 as (s & t & Ht & [? ->]%add_current_usa_Raise).
          exists t. auto. }
      by rewrite !performance_of_val, !mret_bind. }
    exists t. split_and!; [done..|].
    unfold dashboard_general.calculate_portfolio_metrics.
    by rewrite (try_except_Exception_Raise _ _ _ _ Hbody).
Qed.

Lemma overview_fails_only_on_missing_dict_entries_witness :
  complete example.portfolio example.shares_owned example.purchase_prices
  ∧ ∃ ticker,
      dashboard_general.calculate_portfolio_metrics
        example.portfolio example.portfolio_with_unknown
        example.shares_owned example.shares_owned
        example.purchase_prices example.purchase_prices
        example.quotes_without_BBB example.quotes (float 0.128)
      = ([dashboard_general.price_warning "BBB";
          st_error ("Error calculating portfolio metrics: " +:+ repr ticker)],
         Ok dashboard_general.default_metrics).
Proof.
  split.
  - edestruct (proj1 (overview_fails_only_on_missing_dict_entries
                        example.portfolio example.portfolio
                        example.shares_owned example.shares_owned
                        example.purchase_prices example.purchase_prices
                        example.quotes_without_BBB example.quotes
                        (float 0.128))) as [Hc _];
      [vm_compute; reflexivity|exact Hc].
  - edestruct (proj2 (overview_fails_only_on_missing_dict_entries
                        example.portfolio example.portfolio_with_unknown
                        example.shares_owned example.shares_owned
                        example.purchase_prices example.purchase_prices
                        example.quotes_without_BBB example.quotes
                        (float 0.128)))
      as (t & _ & _ & Hm); [vm_compute; reflexivity|].
    exists t. exact Hm.
Defined.

(** ** The overview when no price is available *)

Lemma vsum_cons (v : val) (l : list val) : vsum (v :: l) = vadd v (vsum l).
Proof. unfold vsum at 1. cbn [foldl]. by rewrite foldl_vadd, vadd_0_l. Qed.

Lemma vsum_Num (l : list Qc) : vsum (Num <$> l) = Num (series_sum l).
Proof.
  induction l as [|x l IH]; [done|].
  rewrite fmap_cons, vsum_cons, IH. done.
Qed.

Lemma vsum_EmptySeries (l : list val) : EmptySeries ∈ l → vsum l = EmptySeries.
Proof.
  induction l as [|v l IH]; [by intros ?%elem_of_nil|].
  rewrite vsum_cons. intros [<-|Hl]%elem_of_cons; [done|].
  rewrite IH by done. by destruct v.
Qed.

Lemma vsum_all_Num (l : list val) :
  Forall (λ v, v ≠ EmptySeries) l → ∃ q, vsum l = Num q.
Proof.
  induction 1 as [|v l Hv _ [q IH]]; [by exists 0|].
  rewrite vsum_cons, IH. destruct v as [x|]; [|done]. by eexists.
Qed.

Lemma performance_val_same (x : Qc) : performance_val (Num x) x = Num 0.
Proof.
  unfold performance_val. case_bool_decide as Hx; [done|].
  cbn. f_equal. by field.
Qed.

Lemma unquoted_all (prices : DataFrame) (portfolio : list string) :
  Forall (λ ticker, prices !! ticker = None) portfolio →
  unquoted prices portfolio = portfolio.
Proof.
  unfold unquoted. induction 1 as [|t l Ht _ IH]; [done|].
  by rewrite filter_cons_True, IH.
Qed.

Lemma hk_current_terms_unquoted shares_owned purchase_prices
    (prices : DataFrame) fx (portfolio : list string) :
  Forall (λ ticker, prices !! ticker = None) portfolio →
  hk_current_term shares_owned purchase_prices prices fx <$> portfolio
  = Num <$> (hk_invested_term shares_owned purchase_prices fx <$> portfolio).
Proof.
  induction 1 as [|t l Ht _ IH]; [done|].
  rewrite !fmap_cons, IH. unfold hk_current_term at 1. by rewrite Ht.
Qed.

Lemma usa_current_terms_unquoted shares_owned purchase_prices
    (prices : DataFrame) (portfolio : list string) :
  Forall (λ ticker, prices !! ticker = None) portfolio →
  usa_current_term shares_owned purchase_prices prices <$> portfolio
  = Num <$> (usa_invested_term shares_owned purchase_prices <$> portfolio).
Proof.
  induction 1 as [|t l Ht _ IH]; [done|].
  rewrite !fmap_cons, IH. unfold usa_current_term at 1. by rewrite Ht.
Qed.

Lemma calculate_without_prices
    (portfolio_hk portfolio_usa : list string)
    (shares_owned_hk shares_owned_usa : gmap string Qc)
    (purchase_prices_hk purchase_prices_usa : gmap string Qc)
    (current_prices_hk current_prices_usa : DataFrame) (fx : Qc) :
  complete portfolio_hk shares_owned_hk purchase_prices_hk →
  complete portfolio_usa shares_owned_usa purchase_prices_usa →
  Forall (λ ticker, current_prices_hk !! ticker = None) portfolio_hk →
  Forall (λ ticker, current_prices_usa !! ticker = None) portfolio_usa →
  let invested_hk :=
    series_sum (hk_invested_term shares_owned_hk purchase_prices_hk fx
                  <$> portfolio_hk) in
  let invested_usa :=
    series_sum (usa_invested_term shares_owned_usa purchase_prices_usa
                  <$> portfolio_usa) in
  dashboard_general.calculate_portfolio_metrics
    portfolio_hk portfolio_usa shares_owned_hk shares_owned_usa
    purchase_prices_hk purchase_prices_usa current_prices_hk
    current_prices_usa fx
  = (dashboard_general.price_warning <$> (portfolio_hk ++ portfolio_usa),
     Ok (dashboard_general.Metrics
           (Num (invested_hk + invested_usa))
           (Num invested_hk) (Num invested_usa)
           (Num (invested_hk + invested_usa))
           (Num 0) (Num 0))).
Proof.
  intros Hhk Husa Hnhk Hnusa ih iu. subst ih iu.
  rewrite calculate_portfolio_metrics_complete by done.
  rewrite !unquoted_all by done. unfold metrics_closed_form.
  rewrite hk_current_terms_unquoted, usa_current_terms_unquoted by done.
  by rewrite !vsum_Num, !performance_val_same.
Qed.

(** When no portfolio ticker has a column in the price frames (as after a
    failed download, which yields [pd.DataFrame()]) and the dicts are
    complete, the overview warns once per ticker, values every holding at its
    purchase price, and reports current = invested and a performance of 0 for
    both markets. *)
Theorem overview_without_prices
    (portfolio_hk portfolio_usa : list string)
    (shares_owned_hk shares_owned_usa : gmap string Qc)
    (purchase_prices_hk purchase_prices_usa : gmap string Qc)
    (current_prices_hk current_prices_usa : DataFrame)
    (fx_rate_hkd_to_usd : Qc) :
  complete portfolio_hk shares_owned_hk purchase_prices_hk →
  complete portfolio_usa shares_owned_usa purchase_prices_usa →
  Forall (λ ticker, current_prices_hk !! ticker = None) portfolio_hk →
  Forall (λ ticker, current_prices_usa !! ticker = None) portfolio_usa →
  let invested_hk :=
    series_sum (hk_invested_term shares_owned_hk purchase_prices_hk
                  fx_rate_hkd_to_usd <$> portfolio_hk) in
  let invested_usa :=
    series_sum (usa_invested_term shares_owned_usa purchase_prices_usa
                  <$> portfolio_usa) in
  dashboard_general.calculate_portfolio_metrics
    portfolio_hk portfolio_usa shares_owned_hk shares_owned_usa
    purchase_prices_hk purchase_prices_usa current_prices_hk
    current_prices_usa fx_rate_hkd_to_usd
  = (dashboard_general.price_warning <$> (portfolio_hk ++ portfolio_usa),
     Ok (dashboard_general.Metrics
           (Num (invested_hk + invested_usa))
           (Num invested_hk) (Num invested_usa)
           (Num (invested_hk + invested_usa))
           (Num 0) (Num 0))).
Proof. apply calculate_without_prices. Qed.

Lemma overview_without_prices_witness :
  dashboard_general.calculate_portfolio_metrics
    example.portfolio example.portfolio
    example.shares_owned example.shares_owned
    example.purchase_prices example.purchase_prices
    empty_frame empty_frame (float 0.128)
  = (dashboard_general.price_warning <$> ["AAA"; "BBB"; "AAA"; "BBB"],
     Ok (dashboard_general.Metrics
           (Num (float 338.4)) (Num (float 38.4)) (Num (float 300))
           (Num (float 338.4)) (Num 0) (Num 0))).
Proof.
  etransitivity;
    [apply (overview_without_prices
              example.portfolio example.portfolio
              example.shares_owned example.shares_owned
              example.purchase_prices example.purchase_prices
              empty_frame empty_frame (float 0.128));
       first [decide_closed | by repeat constructor]
    |evaluate].
Defined.

(** ** The headline metrics of the overview *)

Lemma price_val_nonempty (column : Series) :
  column ≠ [] → ∃ q, price_val column = Num q.
Proof.
  intros Hne. unfold price_val.
  destruct (list.last column) as [q|] eqn:Hlast; [by exists q|].
  by apply last_None in Hlast.
Qed.

Lemma hk_current_terms_Num shares_owned purchase_prices (prices : DataFrame)
    fx (portfolio : list string) :
  Forall (λ ticker, prices !! ticker ≠ Some []) portfolio →
  Forall (λ v, v ≠ EmptySeries)
         (hk_current_term shares_owned purchase_prices prices fx <$> portfolio).
Proof.
  intros H. apply Forall_fmap. eapply Forall_impl; [|exact H].
  intros t Ht. cbn in *. unfold hk_current_term.
  destruct (prices !! t) as [col|]; [|done].
  destruct (price_val_nonempty col) as [q ->]; [by intros ->|done].
Qed.

Lemma usa_current_terms_Num shares_owned purchase_prices (prices : DataFrame)
    (portfolio : list string) :
  Forall (λ ticker, prices !! ticker ≠ Some []) portfolio →
  Forall (λ v, v ≠ EmptySeries)
         (usa_current_term shares_owned purchase_prices prices <$> portfolio).
Proof.
  intros H. apply Forall_fmap. eapply Forall_impl; [|exact H].
  intros t Ht. cbn in *. unfold usa_current_term.
  destruct (prices !! t) as [col|]; [|done].
  destruct (price_val_nonempty col) as [q ->]; [by intros ->|done].
Qed.

Lemma hk_current_terms_EmptySeries shares_owned purchase_prices
    (prices : DataFrame) fx (portfolio : list string) :
  Exists (λ ticker, prices !! ticker = Some []) portfolio →
  vsum (hk_current_term shares_owned purchase_prices prices fx <$> portfolio)
  = EmptySeries.
Proof.
  intros (t & Ht%list_elem_of_In & Hcol)%Exists_exists.
  apply vsum_EmptySeries.
  apply list_elem_of_fmap. exists t. split; [|done].
  unfold hk_current_term. by rewrite Hcol.
Qed.

Lemma usa_current_terms_EmptySeries shares_owned purchase_prices
    (prices : DataFrame) (portfolio : list string) :
  Exists (λ ticker, prices !! ticker = Some []) portfolio →
  vsum (usa_current_term shares_owned purchase_prices prices <$> portfolio)
  = EmptySeries.
Proof.
  intros (t & Ht%list_elem_of_In & Hcol)%Exists_exists.
  apply vsum_EmptySeries.
  apply list_elem_of_fmap. exists t. split; [|done].
  unfold usa_current_term. by rewrite Hcol.
Qed.



(** ** Total Return against the two market performances *)




(** ** The FX rate *)

Lemma Qcinv_ne_0 (r : Qc) : r ≠ 0 → 1 / r ≠ 0.
Proof.
  intros Hr H. assert (1 / r * r = 1) as H1 by by field.
  rewrite H, Qcmult_0_l in H1. by apply (f_equal this) in H1.
Qed.

Lemma df_empty_false (frame : DataFrame) label (column : Series) :
  frame !! label = Some column → column ≠ [] → df_empty frame = false.
Proof.
  intros Hcol Hne. unfold df_empty. apply bool_decide_eq_false_2.
  intros H. by apply (H label column) in Hcol.
Qed.

Lemma fetched_Ok_bind {B} (frame : DataFrame) (k : DataFrame → M B) :
  fetched (Ok frame) ≫= k = k frame.
Proof. apply (mret_bind frame k). Qed.


(** When the fetched frame has an [Adj Close] column with rows, the rate of
    the overview is the inverse of its last row and the rate of the HK page
    the inverse of its first row (rate * quote = 1); for a one-row frame the
    two pages use the same rate. *)
Theorem fx_rate_inverts_the_quote (frame : DataFrame) (column : Series)
    (first_close last_close : Qc) :
  frame !! "Adj Close" = Some column →
  head column = Some first_close →
  list.last column = Some last_close →
  first_close ≠ 0 → last_close ≠ 0 →
  dashboard_general.fx_rate_hkd_to_usd_of (Ok frame) * last_close = 1
  ∧ dashboard_hk.get_fx_rate (Ok frame) * first_close = 1
  ∧ (first_close = last_close →
     dashboard_general.fx_rate_hkd_to_usd_of (Ok frame)
     = dashboard_hk.get_fx_rate (Ok frame)).
Proof.
  intros Hcol Hfirst Hlast Hf Hl.
  assert (df_empty frame = false) as Hne.
  { apply (df_empty_false _ _ _ Hcol). by intros ->. }
  assert (dashboard_general.fx_rate_hkd_to_usd_of (Ok frame) = 1 / last_close)
    as ->.
  { unfold dashboard_general.fx_rate_hkd_to_usd_of,
      dashboard_general.get_fx_rate, df_contains, df_getitem,
      dict_get, iloc_last, div.
    rewrite fetched_Ok_bind, Hne, Hcol.
    rewrite bool_decide_eq_true_2 by done. cbn [negb andb].
    rewrite mret_bind, Hlast, mret_bind.
    rewrite bool_decide_eq_false_2 by done. rewrite mret_bind. cbn.
    by rewrite bool_decide_eq_false_2 by by apply Qcinv_ne_0. }
  assert (dashboard_hk.get_fx_rate (Ok frame) = 1 / first_close) as ->.
  { unfold dashboard_hk.get_fx_rate, df_getitem, dict_get,
      iloc_first, div.
    rewrite fetched_Ok_bind, Hne. cbn [negb].
    rewrite Hcol, mret_bind, Hfirst, mret_bind.
    by rewrite bool_decide_eq_false_2 by done. }
  split_and!; [by field..|by intros ->].
Qed.

Lemma fx_rate_inverts_the_quote_witness :
  dashboard_general.fx_rate_hkd_to_usd_of (Ok example.hkd_quote) * float 7.8 = 1
  ∧ dashboard_hk.get_fx_rate (Ok example.hkd_quote) * float 7.8 = 1
  ∧ dashboard_general.fx_rate_hkd_to_usd_of (Ok example.hkd_quote)
    = dashboard_hk.get_fx_rate (Ok example.hkd_quote).
Proof.
  destruct (fx_rate_inverts_the_quote example.hkd_quote [float 7.8]
              (float 7.8) (float 7.8)) as (H1 & H2 & H3);
    [vm_compute; reflexivity..
    |intros H; by apply (f_equal this) in H
    |intros H; by apply (f_equal this) in H|].
  split_and!; [exact H1|exact H2|by apply H3].
Defined.

(** ** The market pages in closed form *)

Lemma foldl_snoc_fmap {X R} (g : X → R) (l : list X) (acc : list R) :
  foldl (λ rows x, rows ++ [g x]) acc l = acc ++ (g <$> l).
Proof.
  revert acc. induction l as [|x l IH]; intros acc; cbn.
  - by rewrite app_nil_r.
  - by rewrite IH, <-app_assoc.
Qed.

Lemma for_append_pure {X R} (f : X → M R) (g : X → R) (l : list X) :
  Forall (λ x, f x = mret (g x)) l → for_append f l = mret (g <$> l).
Proof.
  intros Hl. unfold for_append.
  rewrite (for_loop_pure _ (λ _, []) (λ rows x, rows ++ [g x])).
  - rewrite foldl_snoc_fmap. unfold mret, M_ret. f_equal.
    clear. by induction l.
  - eapply Forall_impl; [|exact Hl]. intros x Hx rows. cbn beta.
    by rewrite Hx, mret_bind.
Qed.



Lemma pages_download_data_no_data (fetch : result DataFrame) :
  no_data fetch ↔ df_empty (pages_download_data fetch) = true.
Proof.
  assert (df_empty empty_frame = true) as Hempty by (vm_compute; reflexivity).
  unfold pages_download_data, no_data.
  destruct fetch as [frame|e]; cbn [outcome fetched mbind M_bind mret M_ret snd];
    [|done].
  destruct (df_empty frame) eqn:H; cbn [negb]; [done|].
  by rewrite H.
Qed.

Section usa_page_closed_form.
Context (shares_owned purchase_prices : gmap string Qc) (prices : DataFrame).


End usa_page_closed_form.




(** ** Pages without data *)

(** Each of the three detail pages stops with the single message "Error
    loading data. Please try again later." and without an exception exactly
    when a fetch it depends on raised or returned an empty frame; the dicts
    of the page are not read in that case. *)
Theorem pages_stop_exactly_without_data
    (portfolio : list string) (shares_owned purchase_prices : gmap string Qc)
    (positions : gmap string (list dashboard_detail.position))
    (selected_ticker : string)
    (adj_close fx_data history spy : result DataFrame) :
  (dashboard_usa.main portfolio shares_owned purchase_prices adj_close
   = ([loading_error], Ok None) ↔ no_data adj_close)
  ∧ (dashboard_hk.main portfolio shares_owned purchase_prices adj_close fx_data
     = ([loading_error], Ok None) ↔ no_data adj_close)
  ∧ (dashboard_detail.main positions selected_ticker history spy
     = ([loading_error], Ok None) ↔ no_data history ∨ no_data spy).
Proof.
  split_and!.
  - rewrite pages_download_data_no_data. unfold dashboard_usa.main.
    fold (dashboard_usa.download_data adj_close).
    destruct (df_empty (dashboard_usa.download_data adj_close)); [done|].
    split; [|done]. intros H. apply (f_equal outcome) in H. cbn in H.
    apply outcome_bind_Ok in H as (rows & _ & H).
    by apply outcome_bind_Ok in H as (perf & _ & H).
  - rewrite pages_download_data_no_data.
    unfold dashboard_hk.main, dashboard_hk.main_with.
    fold (dashboard_hk.download_data adj_close).
    destruct (df_empty (dashboard_hk.download_data adj_close)); [done|].
    split; [|done]. intros H. apply (f_equal outcome) in H. cbn in H.
    apply outcome_bind_Ok in H as (rows & _ & H).
    by apply outcome_bind_Ok in H as (perf & _ & H).
  - rewrite !pages_download_data_no_data. unfold dashboard_detail.main.
    fold (dashboard_detail.download_data history).
    fold (dashboard_detail.download_data spy).
    destruct (df_empty (dashboard_detail.download_data history)),
      (df_empty (dashboard_detail.download_data spy)); cbn [orb];
      [naive_solver..|].
    split; [|by intros [?|?]]. intros H. apply (f_equal outcome) in H.
    cbn in H.
    apply outcome_bind_Ok in H as (lots & _ & H).
    apply outcome_bind_Ok in H as (col & _ & H).
    apply outcome_bind_Ok in H as (cp & _ & H).
    apply outcome_bind_Ok in H as (perf & _ & H).
    by apply outcome_bind_Ok in H as (rows & _ & H).
Qed.

Lemma pages_stop_exactly_without_data_witness :
  dashboard_usa.main example.portfolio_with_unknown ∅ ∅
    (Raise (Exn ValueError "no connection"))
  = ([loading_error], Ok None)
  ∧ dashboard_hk.main example.portfolio_with_unknown ∅ ∅
      (Ok example.quotes_without_rows) (Ok example.hkd_quote)
    = ([loading_error], Ok None)
  ∧ dashboard_detail.main ∅ "VOO" (Ok example.history) (Ok empty_frame)
    = ([loading_error], Ok None)
  ∧ (no_data (Ok example.quotes) → False).
Proof.
  destruct (pages_stop_exactly_without_data example.portfolio_with_unknown
              ∅ ∅ ∅ "VOO" (Raise (Exn ValueError "no connection"))
              (Ok example.hkd_quote) (Ok example.history) (Ok empty_frame))
    as (Husa & _ & Hdetail).
  destruct (pages_stop_exactly_without_data example.portfolio_with_unknown
              ∅ ∅ ∅ "VOO" (Ok example.quotes_without_rows)
              (Ok example.hkd_quote) (Ok example.history) (Ok empty_frame))
    as (_ & Hhk & _).
  destruct (pages_stop_exactly_without_data example.portfolio
              example.shares_owned example.purchase_prices ∅ "VOO"
              (Ok example.quotes)
              (Ok example.hkd_quote) (Ok example.history) (Ok empty_frame))
    as (Hdata & _ & _).
  split_and!.
  - apply Husa. exact I.
  - apply Hhk. vm_compute; reflexivity.
  - apply Hdetail. right. vm_compute; reflexivity.
  - intros Hno. apply Hdata in Hno. vm_compute in Hno. discriminate Hno.
Defined.

(** ** The HK page in closed form *)

Section hk_page_closed_form.
Context (shares_owned purchase_prices : gmap string Qc).
Context (prices : DataFrame) (fx : Qc).


End hk_page_closed_form.




(** ** The overview and the market pages on the same data *)

Lemma positive_complete portfolio shares_owned purchase_prices :
  positive portfolio shares_owned purchase_prices →
  complete portfolio shares_owned purchase_prices.
Proof.
  intros H. eapply Forall_impl; [|exact H]. intros t [Hs Hp]. cbn in *.
  unfold entry in *.
  destruct (shares_owned !! t), (purchase_prices !! t); cbn in *;
    try done; by apply Qclt_irrefl in Hs || by apply Qclt_irrefl in Hp.
Qed.

Lemma series_sum_positive (l : list Qc) :
  l ≠ [] → Forall (λ x, 0 < x) l → 0 < series_sum l.
Proof.
  intros Hne Hl. destruct Hl as [|x l Hx Hl]; [done|]. clear Hne.
  unfold series_sum. cbn [foldr]. fold (series_sum l).
  apply Qcplus_pos_nonneg; [done|].
  clear x Hx. induction Hl as [|y l Hy _ IH]; [done|].
  unfold series_sum. cbn [foldr]. fold (series_sum l).
  apply Qcplus_nonneg_nonneg; [by apply Qclt_le_weak|done].
Qed.





Section same_data.
Context (shares_owned purchase_prices : gmap string Qc).
Context (prices : DataFrame) (fx : Qc).







Lemma hk_invested_terms_positive portfolio :
  0 < fx → positive portfolio shares_owned purchase_prices →
  Forall (λ x, 0 < x)
         (hk_invested_term shares_owned purchase_prices fx <$> portfolio).
Proof.
  intros Hfx H. apply Forall_fmap. eapply Forall_impl; [|exact H].
  intros t [Hs Hp]. cbn. unfold hk_invested_term.
  by repeat apply Qcmult_pos_pos.
Qed.

Lemma usa_invested_terms_positive portfolio :
  positive portfolio shares_owned purchase_prices →
  Forall (λ x, 0 < x)
         (usa_invested_term shares_owned purchase_prices <$> portfolio).
Proof.
  intros H. apply Forall_fmap. eapply Forall_impl; [|exact H].
  intros t [Hs Hp]. cbn. unfold usa_invested_term.
  by apply Qcmult_pos_pos.
Qed.
End same_data.



(** ** The performance of a holding is its price change *)



(** ** The detail page: a holding and its purchases *)





(** ** The overview from the downloads to the metrics *)

Lemma overview_download_data_Raise tickers e :
  dashboard_general.download_data tickers (Raise e)
  = ([st_error ("Error downloading data: " +:+ exn_str e)], Ok empty_frame).
Proof. done. Qed.

Lemma overview_download_data_Ok tickers (frame : DataFrame) :
  dashboard_general.download_data tickers (Ok frame)
  = (if df_empty frame
     then [st_warning ("No data available for some tickers: "
                       +:+ repr_list tickers)]
     else [],
     Ok frame).
Proof.
  unfold dashboard_general.download_data. rewrite fetched_Ok_bind.
  by destruct (df_empty frame).
Qed.

Lemma total_current_EmptySeries
    (portfolio_hk portfolio_usa : list string)
    (shares_owned_hk shares_owned_usa : gmap string Qc)
    (purchase_prices_hk purchase_prices_usa : gmap string Qc)
    (current_prices_hk current_prices_usa : DataFrame) (fx : Qc) :
  Exists (λ ticker, current_prices_hk !! ticker = Some []) portfolio_hk
  ∨ Exists (λ ticker, current_prices_usa !! ticker = Some []) portfolio_usa →
  dashboard_general.total_current
    (metrics_closed_form portfolio_hk portfolio_usa shares_owned_hk
       shares_owned_usa purchase_prices_hk purchase_prices_usa
       current_prices_hk current_prices_usa fx) = EmptySeries.
Proof.
  unfold metrics_closed_form. cbn [dashboard_general.total_current].
  intros [H|H].
  - by rewrite hk_current_terms_EmptySeries.
  - rewrite (usa_current_terms_EmptySeries _ _ _ _ H). by destruct (vsum _).
Qed.

Lemma headline_metrics_EmptySeries cash (m : dashboard_general.metrics) invested :
  dashboard_general.total_invested m = Num invested → invested ≠ 0 →
  dashboard_general.total_current m = EmptySeries →
  dashboard_general.total_return m = mret (float (-100))
  ∧ dashboard_general.headline_metrics cash m
    = raise (Exn TypeError
               "unsupported format string passed to Series.__format__").
Proof.
  intros Hti Hne Htc.
  assert (dashboard_general.total_return m = mret (float (-100))) as Htr.
  { unfold dashboard_general.total_return, div. rewrite Hti, Htc.
    cbn [sum_if_series]. rewrite bool_decide_eq_false_2, mret_bind by done.
    unfold Qcdiv. rewrite Qcmult_0_l. unfold mret, M_ret. do 2 f_equal. }
  split; [done|].
  unfold dashboard_general.headline_metrics.
  by rewrite Htr, Hti, Htc, !mret_bind.
Qed.

(** When both price downloads raise and the dicts are complete, the overview
    never stops: it shows the two download errors, then one warning per
    ticker, and, if the invested total is not 0, reports a Total Return of 0,
    the invested total as Total Investment and the invested total plus the
    cash as Current Value. *)
Theorem overview_when_downloads_fail
    (portfolio_hk portfolio_usa : list string)
    (shares_owned_hk shares_owned_usa : gmap string Qc)
    (purchase_prices_hk purchase_prices_usa : gmap string Qc)
    (cash_available : Qc) (e_hk e_usa : exn) (fx_data : result DataFrame) :
  let fx := dashboard_general.fx_rate_hkd_to_usd_of fx_data in
  let invested :=
    series_sum (hk_invested_term shares_owned_hk purchase_prices_hk fx
                  <$> portfolio_hk)
    + series_sum (usa_invested_term shares_owned_usa purchase_prices_usa
                    <$> portfolio_usa) in
  complete portfolio_hk shares_owned_hk purchase_prices_hk →
  complete portfolio_usa shares_owned_usa purchase_prices_usa →
  invested ≠ 0 →
  dashboard_general.overview portfolio_hk portfolio_usa
    shares_owned_hk shares_owned_usa purchase_prices_hk purchase_prices_usa
    cash_available (Raise e_hk) (Raise e_usa) fx_data
  = ([st_error ("Error downloading data: " +:+ exn_str e_hk);
      st_error ("Error downloading data: " +:+ exn_str e_usa)]
     ++ (dashboard_general.price_warning <$> (portfolio_hk ++ portfolio_usa)),
     Ok (dashboard_general.Headline 0 invested (invested + cash_available)
           cash_available)).
Proof.
  intros fx invested Hhk Husa Hne. unfold dashboard_general.overview.
  rewrite !overview_download_data_Raise, !bind_pair_Ok.
  rewrite calculate_without_prices;
    [|done|done|apply Forall_forall; intros; apply lookup_empty..].
  rewrite bind_pair_Ok. fold fx. fold invested.
  unfold dashboard_general.headline_metrics, dashboard_general.total_return,
    div.
  cbn [dashboard_general.total_invested dashboard_general.total_current
       sum_if_series].
  rewrite bool_decide_eq_false_2, !mret_bind by done.
  cbn [vadd lift2 dashboard_general.format_number]. rewrite !mret_bind.
  cbn. rewrite app_nil_r. do 4 f_equal. by field.
Qed.

Lemma overview_when_downloads_fail_witness :
  ∃ invested,
    dashboard_general.overview example.portfolio example.portfolio
      example.shares_owned example.shares_owned
      example.purchase_prices example.purchase_prices
      (float 77.77) (Raise (Exn ValueError "no connection"))
      (Raise (Exn ValueError "no connection"))
      (Raise (Exn ValueError "no connection"))
    = ([st_error "Error downloading data: no connection";
        st_error "Error downloading data: no connection"]
       ++ (dashboard_general.price_warning
             <$> (example.portfolio ++ example.portfolio)),
       Ok (dashboard_general.Headline 0 invested (invested + float 77.77)
             (float 77.77))).
Proof.
  eexists.
  apply (overview_when_downloads_fail example.portfolio example.portfolio
           example.shares_owned example.shares_owned
           example.purchase_prices example.purchase_prices (float 77.77)
           (Exn ValueError "no connection") (Exn ValueError "no connection")
           (Raise (Exn ValueError "no connection")));
    [decide_closed..|].
  intros H. apply (f_equal this) in H. vm_compute in H. discriminate H.
Defined.

(** When the HK download returns a frame in which some HK portfolio ticker
    has a column without rows, the overview keeps that frame, the HK current
    total degenerates to an empty [Series], and the script stops with a
    [TypeError] when it formats the Current Value (for complete dicts and a
    non-zero invested total), whatever the USA download returns. *)
Theorem overview_with_rowless_column
    (portfolio_hk portfolio_usa : list string)
    (shares_owned_hk shares_owned_usa : gmap string Qc)
    (purchase_prices_hk purchase_prices_usa : gmap string Qc)
    (cash_available : Qc) (frame_hk : DataFrame)
    (adj_close_usa fx_data : result DataFrame) :
  let fx := dashboard_general.fx_rate_hkd_to_usd_of fx_data in
  complete portfolio_hk shares_owned_hk purchase_prices_hk →
  complete portfolio_usa shares_owned_usa purchase_prices_usa →
  Exists (λ ticker, frame_hk !! ticker = Some []) portfolio_hk →
  series_sum (hk_invested_term shares_owned_hk purchase_prices_hk fx
                <$> portfolio_hk)
  + series_sum (usa_invested_term shares_owned_usa purchase_prices_usa
                  <$> portfolio_usa) ≠ 0 →
  outcome (dashboard_general.overview portfolio_hk portfolio_usa
             shares_owned_hk shares_owned_usa purchase_prices_hk
             purchase_prices_usa cash_available (Ok frame_hk) adj_close_usa
             fx_data)
  = Raise (Exn TypeError
             "unsupported format string passed to Series.__format__").
Proof.
  intros fx Hhk Husa Hempty Hne. unfold dashboard_general.overview.
  rewrite overview_download_data_Ok, bind_pair_Ok. cbn [outcome snd].
  assert (∃ log frame_usa,
            dashboard_general.download_data portfolio_usa adj_close_usa
            = (log, Ok frame_usa)) as (log & frame_usa & ->).
  { destruct adj_close_usa as [f|e].
    - rewrite overview_download_data_Ok. by eexists _, _.
    - rewrite overview_download_data_Raise. by eexists _, _. }
  rewrite bind_pair_Ok. cbn [outcome snd].
  rewrite calculate_portfolio_metrics_complete by done.
  rewrite bind_pair_Ok. cbn [outcome snd]. fold fx.
  by edestruct (headline_metrics_EmptySeries cash_available
                  (metrics_closed_form portfolio_hk portfolio_usa
                     shares_owned_hk shares_owned_usa purchase_prices_hk
                     purchase_prices_usa frame_hk frame_usa fx))
    as [_ ->]; [reflexivity|exact Hne|apply total_current_EmptySeries; by left|].
Qed.

Lemma overview_with_rowless_column_witness :
  outcome (dashboard_general.overview example.portfolio example.portfolio
             example.shares_owned example.shares_owned
             example.purchase_prices example.purchase_prices (float 77.77)
             (Ok example.quotes_without_rows) (Ok example.quotes)
             (Ok example.hkd_quote))
  = Raise (Exn TypeError
             "unsupported format string passed to Series.__format__").
Proof.
  apply (overview_with_rowless_column example.portfolio example.portfolio
           example.shares_owned example.shares_owned
           example.purchase_prices example.purchase_prices (float 77.77)
           example.quotes_without_rows (Ok example.quotes)
           (Ok example.hkd_quote));
    [decide_closed..|].
  intros H. apply (f_equal this) in H. vm_compute in H. discriminate H.
Defined.

Lemma overview_download_data_total tickers fetch :
  ∃ log frame,
    dashboard_general.download_data tickers fetch = (log, Ok frame).
Proof.
  destruct fetch as [f|e].
  - rewrite overview_download_data_Ok. by eexists _, _.
  - rewrite overview_download_data_Raise. by eexists _, _.
Qed.

Lemma series_sum_nonneg (l : list Qc) :
  Forall (λ x, 0 < x) l → 0 ≤ series_sum l.
Proof.
  destruct l as [|x l]; [done|]. intros H.
  by apply Qclt_le_weak, series_sum_positive.
Qed.

Lemma invested_total_positive
    (portfolio_hk portfolio_usa : list string)
    (shares_owned_hk shares_owned_usa : gmap string Qc)
    (purchase_prices_hk purchase_prices_usa : gmap string Qc) (fx : Qc) :
  positive portfolio_hk shares_owned_hk purchase_prices_hk →
  positive portfolio_usa shares_owned_usa purchase_prices_usa →
  portfolio_hk ≠ [] ∨ portfolio_usa ≠ [] →
  0 < fx →
  0 < series_sum (hk_invested_term shares_owned_hk purchase_prices_hk fx
                    <$> portfolio_hk)
      + series_sum (usa_invested_term shares_owned_usa purchase_prices_usa
                      <$> portfolio_usa).
Proof.
  intros Hhk Husa Hne Hfx.
  pose proof (hk_invested_terms_positive _ _ _ _ Hfx Hhk) as Hh.
  pose proof (usa_invested_terms_positive _ _ _ Husa) as Hu.
  destruct Hne as [Hne|Hne].
  - apply Qcplus_pos_nonneg; [|by apply series_sum_nonneg].
    apply series_sum_positive; [|done]. by destruct portfolio_hk.
  - rewrite Qcplus_comm.
    apply Qcplus_pos_nonneg; [|by apply series_sum_nonneg].
    apply series_sum_positive; [|done]. by destruct portfolio_usa.
Qed.

(** With positive share counts and purchase prices, at least one holding
    and a positive FX rate, as the data written in the page have, the
    overview never divides by zero and never misses a dict entry, whatever
    the three downloads return: either it shows its four metrics, with a
    positive Total Investment and a Current Value equal to the Total
    Investment grown by the Total Return plus the cash, or it stops with the
    [TypeError] of a price column without rows. *)
Theorem overview_with_positive_holdings
    (portfolio_hk portfolio_usa : list string)
    (shares_owned_hk shares_owned_usa : gmap string Qc)
    (purchase_prices_hk purchase_prices_usa : gmap string Qc)
    (cash_available : Qc)
    (adj_close_hk adj_close_usa fx_data : result DataFrame) :
  positive portfolio_hk shares_owned_hk purchase_prices_hk →
  positive portfolio_usa shares_owned_usa purchase_prices_usa →
  portfolio_hk ≠ [] ∨ portfolio_usa ≠ [] →
  0 < dashboard_general.fx_rate_hkd_to_usd_of fx_data →
  match outcome (dashboard_general.overview portfolio_hk portfolio_usa
                   shares_owned_hk shares_owned_usa purchase_prices_hk
                   purchase_prices_usa cash_available adj_close_hk
                   adj_close_usa fx_data) with
  | Ok h =>
      0 < dashboard_general.Total_Investment h
      ∧ dashboard_general.Current_Value h
        = (dashboard_general.Total_Return h / float 100 + 1)
          * dashboard_general.Total_Investment h
          + cash_available
      ∧ dashboard_general.Available_Cash h = cash_available
  | Raise e =>
      e = Exn TypeError
            "unsupported format string passed to Series.__format__"
  end.
Proof.
  intros Hhk Husa Hne Hfx.
  pose proof (invested_total_positive _ _ _ _ _ _ _ Hhk Husa Hne Hfx) as Hpos.
  pose proof (Qclt_0_ne _ Hpos) as Hne0.
  unfold dashboard_general.overview.
  destruct (overview_download_data_total portfolio_hk adj_close_hk)
    as (log_hk & frame_hk & ->).
  destruct (overview_download_data_total portfolio_usa adj_close_usa)
    as (log_usa & frame_usa & ->).
  rewrite !bind_pair_Ok. cbn [outcome snd].
  rewrite calculate_portfolio_metrics_complete by by apply positive_complete.
  rewrite bind_pair_Ok. cbn [outcome snd].
  set (fx := dashboard_general.fx_rate_hkd_to_usd_of fx_data) in *.
  destruct (decide (Exists (λ ticker, frame_hk !! ticker = Some [])
                      portfolio_hk
                    ∨ Exists (λ ticker, frame_usa !! ticker = Some [])
                        portfolio_usa)) as [Hempty|Hfull].
  - by edestruct (headline_metrics_EmptySeries cash_available
                    (metrics_closed_form portfolio_hk portfolio_usa
                       shares_owned_hk shares_owned_usa purchase_prices_hk
                       purchase_prices_usa frame_hk frame_usa fx))
      as [_ ->];
      [reflexivity|exact Hne0|by apply total_current_EmptySeries|].
  - assert (Forall (λ ticker, frame_hk !! ticker ≠ Some []) portfolio_hk)
      as Hqhk.
    { apply Forall_forall. intros t Ht Hcol. apply Hfull. left.
      apply Exists_exists. exists t.
      split; [first [assumption | by apply list_elem_of_In]|done]. }
    assert (Forall (λ ticker, frame_usa !! ticker ≠ Some []) portfolio_usa)
      as Hqusa.
    { apply Forall_forall. intros t Ht Hcol. apply Hfull. right.
      apply Exists_exists. exists t.
      split; [first [assumption | by apply list_elem_of_In]|done]. }
    unfold dashboard_general.headline_metrics, dashboard_general.total_return,
      metrics_closed_form.
    cbn [dashboard_general.total_invested dashboard_general.total_current
         sum_if_series].
    destruct (vsum_all_Num _ (hk_current_terms_Num shares_owned_hk
                                purchase_prices_hk _ fx _ Hqhk)) as [ch ->].
    destruct (vsum_all_Num _ (usa_current_terms_Num shares_owned_usa
                                purchase_prices_usa _ _ Hqusa)) as [cu ->].
    unfold div. rewrite bool_decide_eq_false_2 by done.
    rewrite !mret_bind. cbn.
    split_and!; [done| |done].
    assert (float 100 ≠ 0) as H100.
    { intros H. apply (f_equal this) in H. vm_compute in H. discriminate H. }
    by field.
Qed.

Lemma overview_with_positive_holdings_witness :
  match outcome (dashboard_general.overview
                   dashboard_general.data.portfolio_hk
                   dashboard_general.data.portfolio_usa
                   dashboard_general.data.shares_owned_hk
                   dashboard_general.data.shares_owned_usa
                   dashboard_general.data.purchase_prices_hk
                   dashboard_general.data.purchase_prices_usa
                   dashboard_general.data.cash_available
                   (Ok example.quotes) (Raise (Exn ValueError "no connection"))
                   (Ok example.hkd_quote)) with
  | Ok h =>
      0 < dashboard_general.Total_Investment h
      ∧ dashboard_general.Current_Value h
        = (dashboard_general.Total_Return h / float 100 + 1)
          * dashboard_general.Total_Investment h
          + dashboard_general.data.cash_available
      ∧ dashboard_general.Available_Cash h
        = dashboard_general.data.cash_available
  | Raise e =>
      e = Exn TypeError
            "unsupported format string passed to Series.__format__"
  end.
Proof.
  apply (overview_with_positive_holdings
           dashboard_general.data.portfolio_hk
           dashboard_general.data.portfolio_usa
           dashboard_general.data.shares_owned_hk
           dashboard_general.data.shares_owned_usa
           dashboard_general.data.purchase_prices_hk
           dashboard_general.data.purchase_prices_usa
           dashboard_general.data.cash_available
           (Ok example.quotes) (Raise (Exn ValueError "no connection"))
           (Ok example.hkd_quote));
    [decide_closed|decide_closed|by left|vm_compute; reflexivity].
Defined.

(** ** Rounding to two decimals *)

Lemma Qc_le_this (a b : Qc) : a ≤ b ↔ (this a <= this b)%Q.
Proof. unfold Qcle. reflexivity. Qed.

Lemma Z2Qc_this z : this (Z2Qc z) = inject_Z z.
Proof. apply Qred_identity. cbn. apply Z.gcd_1_r. Qed.

Lemma rint_bounds_Z (n : Z) (d : BinNums.positive) :
  let floor := (n / Z.pos d)%Z in
  let z := match (2 * (n mod Z.pos d) ?= Z.pos d)%Z with
           | Lt => floor
           | Gt => (floor + 1)%Z
           | Eq => if Z.even floor then floor else (floor + 1)%Z
           end in
  (2 * n - Z.pos d <= 2 * z * Z.pos d <= 2 * n + Z.pos d)%Z.
Proof.
  intros floor z. subst z floor.
  pose proof (Z.div_mod n (Z.pos d) ltac:(lia)) as Hdm.
  pose proof (Z.mod_pos_bound n (Z.pos d) ltac:(lia)) as Hb.
  destruct (Z.compare_spec (2 * (n mod Z.pos d)) (Z.pos d));
    [destruct (Z.even _)|..]; nia.
Qed.

Lemma rint_close (y : Qc) :
  y - float (1 # 2) ≤ Z2Qc (rint y) ≤ y + float (1 # 2).
Proof.
  pose proof (rint_bounds_Z (Qnum y) (Qden y)) as H. cbn zeta in H.
  fold (rint y) in H.
  rewrite !Qc_le_this. unfold Qcminus, Qcplus, Qcopp, float, Q2Qc. cbn [this].
  rewrite !Qred_correct. rewrite Z2Qc_this.
  destruct y as [[n d] Hc]. cbn [this Qnum Qden] in *.
  unfold Qle, Qplus, Qopp, inject_Z. cbn [Qnum Qden]. lia.
Qed.

Lemma rint_nonneg (y : Qc) : 0 ≤ y → (0 <= rint y)%Z.
Proof.
  rewrite Qc_le_this. destruct y as [[n d] Hc]. unfold rint.
  cbn [this Qnum Qden]. unfold Qle. cbn [Qnum Qden].
  change (Qnum (Q2Qc 0)) with 0%Z. change (QDen (Q2Qc 0)) with 1%Z. intros Hn.
  assert (0 <= n)%Z as Hn' by lia.
  pose proof (Z.div_pos n (Z.pos d) Hn' ltac:(lia)).
  destruct (_ ?= _)%Z; [destruct (Z.even _)|..]; lia.
Qed.

Lemma rint_zero_iff (y : Qc) : 0 ≤ y → rint y = 0%Z ↔ y ≤ float (1 # 2).
Proof.
  rewrite !Qc_le_this. destruct y as [[n d] Hc]. unfold rint.
  cbn [this Qnum Qden]. unfold Qle. cbn [Qnum Qden].
  change (Qnum (Q2Qc 0)) with 0%Z. change (QDen (Q2Qc 0)) with 1%Z. intros Hn.
  assert (0 <= n)%Z as Hn' by lia.
  pose proof (Z.div_mod n (Z.pos d) ltac:(lia)) as Hdm.
  pose proof (Z.mod_pos_bound n (Z.pos d) ltac:(lia)) as Hb.
  pose proof (Z.div_pos n (Z.pos d) Hn' ltac:(lia)) as Hf.
  change (QDen (float (1 # 2))) with 2%Z.
  change (Qnum (float (1 # 2))) with 1%Z.
  destruct (Z.compare_spec (2 * (n mod Z.pos d)) (Z.pos d)) as [He|Hl|Hg].
  - destruct (Z.even (n / Z.pos d)) eqn:Heven.
    + split; [nia|]. intros Hle.
      assert (n / Z.pos d = 0 ∨ 1 <= n / Z.pos d)%Z as [?|?] by lia; [done|nia].
    + split; [lia|]. intros Hle.
      assert (n / Z.pos d = 0 ∨ 1 <= n / Z.pos d)%Z as [H0|?] by lia; [|nia].
      by rewrite H0 in Heven.
  - split; [nia|]. intros Hle.
    assert (n / Z.pos d = 0 ∨ 1 <= n / Z.pos d)%Z as [?|?] by lia; [done|nia].
  - split; [lia|]. intros Hle. nia.
Qed.

Lemma Qc_lt_this (a b : Qc) : a < b ↔ (this a < this b)%Q.
Proof. unfold Qclt. reflexivity. Qed.

Ltac to_Q :=
  rewrite ?Qc_le_this, ?Qc_lt_this in *;
  unfold Z2Qc, Qcdiv, Qcinv, Qcminus, Qcopp, Qcplus, Qcmult, float, Q2Qc in *;
  cbn [this] in *;
  rewrite ?Qred_correct in *.


(** ** Texts of numbers and what [float] reads from them *)

Lemma append_cons (a : Ascii.ascii) (s t : string) :
  String a s +:+ t = String a (s +:+ t).
Proof. reflexivity. Qed.

Lemma append_nil (t : string) : "" +:+ t = t.
Proof. reflexivity. Qed.

Lemma free_of_app (s t chars : string) :
  free_of (s +:+ t) chars = free_of s chars && free_of t chars.
Proof.
  induction s as [|a s IH]; [done|].
  rewrite append_cons. cbn. rewrite IH. by rewrite andb_assoc.
Qed.

Lemma free_of_uint (d : uint) (c : Ascii.ascii) :
  uint_of_char c (Some Nil) = None →
  free_of (NilEmpty.string_of_uint d) (String c EmptyString) = true.
Proof.
  intros Hc. induction d as [|d IH|d IH|d IH|d IH|d IH|d IH|d IH|d IH|d IH|d IH];
    [done|..]; cbn [free_of in_chars NilEmpty.string_of_uint];
    rewrite IH, orb_false_r, andb_true_r;
    apply negb_true_iff, Ascii.eqb_neq; by intros <-.
Qed.

Lemma lstrip_free (s t chars : string) (a : Ascii.ascii) :
  free_of s chars = true → in_chars a chars = false →
  lstrip (s +:+ String a t) chars = s +:+ String a t.
Proof.
  destruct s as [|b s]; rewrite ?append_cons, ?append_nil;
    cbn [free_of lstrip].
  - by intros _ ->.
  - intros [Hb _]%andb_true_iff _. apply negb_true_iff in Hb. by rewrite Hb.
Qed.

Lemma rstrip_free (s : string) (c : Ascii.ascii) :
  free_of s (String c EmptyString) = true →
  rstrip (s +:+ String c EmptyString) (String c EmptyString) = s.
Proof.
  induction s as [|a s IH]; rewrite ?append_cons, ?append_nil;
    cbn [free_of rstrip in_chars].
  - by rewrite Ascii.eqb_refl.
  - intros [Ha Hs]%andb_true_iff. rewrite (IH Hs).
    apply negb_true_iff in Ha. rewrite Ha. by destruct s.
Qed.

Lemma split_point_uint (d : uint) (rest : string) :
  split_point (NilEmpty.string_of_uint d +:+ String "."%char rest)
  = (NilEmpty.string_of_uint d, rest).
Proof.
  induction d as [|d IH|d IH|d IH|d IH|d IH|d IH|d IH|d IH|d IH|d IH];
    [done|..]; cbn [NilEmpty.string_of_uint]; rewrite append_cons;
    cbn [split_point]; by rewrite IH.
Qed.

Lemma digits_value_uint (d : uint) :
  digits_value (NilEmpty.string_of_uint d) = Some (N.of_uint d).
Proof. unfold digits_value. by rewrite NilEmpty.usu. Qed.

Lemma two_digits (a b : N) :
  (a < 10)%N → (b < 10)%N →
  String.length (NilEmpty.string_of_uint (digit a (digit b Nil))) = 2%nat
  ∧ N.of_uint (digit a (digit b Nil)) = (10 * a + b)%N.
Proof.
  intros Ha Hb.
  assert (a = 0 ∨ a = 1 ∨ a = 2 ∨ a = 3 ∨ a = 4 ∨ a = 5 ∨ a = 6 ∨ a = 7
          ∨ a = 8 ∨ a = 9)%N as Ha' by lia.
  assert (b = 0 ∨ b = 1 ∨ b = 2 ∨ b = 3 ∨ b = 4 ∨ b = 5 ∨ b = 6 ∨ b = 7
          ∨ b = 8 ∨ b = 9)%N as Hb' by lia.
  clear Ha Hb. destruct_or!; subst; by vm_compute.
Qed.

Lemma py_float_decimal (negative : bool) (d : uint) (fraction : string) (f : N) :
  digits_value fraction = Some f → fraction ≠ "" →
  py_float ((if negative then "-" else "")
            +:+ NilEmpty.string_of_uint d +:+ String "."%char fraction)
  = mret (let v := Z2Qc (Z.of_N (N.of_uint d))
                   + Z2Qc (Z.of_N f)
                     / Z2Qc (10 ^ Z.of_nat (String.length fraction)) in
          if negative then - v else v).
Proof.
  intros Hf Hne.
  assert (∀ s,
            (let (integer, fraction) :=
               split_point (NilEmpty.string_of_uint d
                            +:+ String "."%char fraction) in
             match digits_value integer, digits_value fraction with
             | Some i, Some f =>
                 if bool_decide (integer = "" ∧ fraction = "")
                 then raise (Exn ValueError s)
                 else
                   let v := Z2Qc (Z.of_N i)
                            + Z2Qc (Z.of_N f)
                              / Z2Qc (10 ^ Z.of_nat (String.length fraction)) in
                   mret (if negative then - v else v)
             | _, _ => raise (Exn ValueError s)
             end)
            = mret (let v := Z2Qc (Z.of_N (N.of_uint d))
                             + Z2Qc (Z.of_N f)
                               / Z2Qc (10 ^ Z.of_nat (String.length fraction)) in
                    if negative then - v else v)) as Hbody.
  { intros s. rewrite split_point_uint, digits_value_uint, Hf.
    rewrite bool_decide_eq_false_2; [done|]. by intros [_ ?]. }
  destruct negative.
  - rewrite append_cons, append_nil. unfold py_float. lazy iota beta zeta.
    apply Hbody.
  - rewrite append_nil.
    destruct d; try (cbn [NilEmpty.string_of_uint]; rewrite append_cons);
      unfold py_float; lazy iota beta zeta; try apply Hbody.
Qed.

Lemma magnitude_nonneg (x : Qc) :
  0 ≤ (if bool_decide (x < 0) then - x else x) * float 100.
Proof.
  case_bool_decide as H; [|apply Qcnot_lt_le in H]; to_Q; lra.
Qed.

Lemma format_2f_decimal (x : Qc) :
  ∃ d fraction f,
    format_2f x
    = (if bool_decide (x < 0) then "-" else "")
      +:+ NilEmpty.string_of_uint d +:+ String "."%char fraction
    ∧ digits_value fraction = Some f
    ∧ fraction ≠ ""
    ∧ free_of fraction "%" = true
    ∧ rounded_2f x
      = (let v := Z2Qc (Z.of_N (N.of_uint d))
                  + Z2Qc (Z.of_N f)
                    / Z2Qc (10 ^ Z.of_nat (String.length fraction)) in
         if bool_decide (x < 0) then - v else v).
Proof.
  unfold format_2f, rounded_2f.
  pose proof (rint_nonneg _ (magnitude_nonneg x)) as Hc.
  set (c := rint _) in *. set (cents := Z.to_N c).
  assert (c = Z.of_N cents) as Hcc by lia. clearbody cents c.
  destruct (two_digits (cents mod 100 / 10) (cents mod 10)) as [Hlen Hval].
  { apply N.Div0.div_lt_upper_bound. pose proof (N.mod_lt cents 100). lia. }
  { apply N.mod_lt. lia. }
  eexists (N.to_uint (cents / 100)), _, _. split_and!.
  - reflexivity.
  - rewrite digits_value_uint, Hval. reflexivity.
  - intros H. by rewrite H in Hlen.
  - by apply free_of_uint.
  - rewrite Unsigned.of_to, Hlen.
    assert (Z2Qc (Z.of_N (cents / 100))
            + Z2Qc (Z.of_N (10 * (cents `mod` 100 / 10) + cents `mod` 10))
              / Z2Qc (10 ^ Z.of_nat 2)
            = Z2Qc c / float 100) as ->; [|done].
    assert (c = 100 * Z.of_N (cents / 100)
                + Z.of_N (10 * (cents `mod` 100 / 10) + cents `mod` 10))%Z
      as Hsplit.
    { rewrite Hcc.
      pose proof (N.div_mod cents 100 ltac:(lia)) as H1.
      pose proof (N.div_mod (cents mod 100) 10 ltac:(lia)) as H2.
      assert ((cents mod 100) mod 10 = cents mod 10)%N as Hmm.
      { pose proof (N.Div0.mod_mul_r cents 10 10) as Hr.
        change (10 * 10)%N with 100%N in Hr. rewrite Hr.
        rewrite N.mul_comm, N.Div0.mod_add. by rewrite N.Div0.mod_mod. }
      rewrite Hmm in H2. lia. }
    rewrite Hsplit.
    set (q := Z.of_N (cents / 100)). set (r := Z.of_N _).
    apply Qc_is_canon. to_Q.
    rewrite inject_Z_plus, inject_Z_mult.
    change (inject_Z (10 ^ Z.of_nat 2)) with 100%Q.
    change (inject_Z 100) with 100%Q. field.
Qed.

Lemma append_assoc (s t u : string) : (s +:+ t) +:+ u = s +:+ (t +:+ u).
Proof.
  induction s as [|a s IH]; [done|]. rewrite !append_cons. by rewrite IH.
Qed.

Lemma strip_format_2f (x : Qc) :
  strip (format_2f x +:+ "%") "%" = format_2f x.
Proof.
  destruct (format_2f_decimal x) as (d & fraction & f & Hs & _ & _ & Hfree & _).
  assert (free_of ((if bool_decide (x < 0) then "-" else "")
                   +:+ NilEmpty.string_of_uint d) "%" = true) as Hhead.
  { rewrite free_of_app, free_of_uint by done. by destruct (bool_decide _). }
  unfold strip. rewrite Hs.
  rewrite <-(append_assoc _ (NilEmpty.string_of_uint d)).
  rewrite append_assoc, append_cons.
  rewrite lstrip_free by done.
  rewrite <-append_cons, <-append_assoc.
  apply rstrip_free. rewrite free_of_app, Hhead. cbn [free_of andb].
  by rewrite Hfree.
Qed.

Lemma py_float_format_2f (x : Qc) :
  py_float (format_2f x) = mret (rounded_2f x).
Proof.
  destruct (format_2f_decimal x) as (d & fraction & f & -> & Hf & Hne & _ & ->).
  by apply py_float_decimal.
Qed.

Lemma rounded_2f_close (x : Qc) :
  x - float (1 # 200) ≤ rounded_2f x ≤ x + float (1 # 200).
Proof.
  unfold rounded_2f.
  pose proof (rint_close ((if bool_decide (x < 0) then - x else x)
                          * float 100)) as H.
  set (z := rint _) in *. clearbody z.
  case_bool_decide; to_Q; change (/ 100)%Q with (1 # 100)%Q; lra.
Qed.

Lemma rounded_2f_sign (x : Qc) : 0 ≤ rounded_2f x ↔ - float (1 # 200) ≤ x.
Proof.
  unfold rounded_2f.
  pose proof (rint_nonneg _ (magnitude_nonneg x)) as Hz.
  pose proof (rint_zero_iff _ (magnitude_nonneg x)) as H0.
  set (z := rint _) in *. clearbody z.
  case_bool_decide as Hx.
  - assert (z = 0 ∨ 1 <= z)%Z as [->|Hz1] by lia.
    + pose proof (proj1 H0 eq_refl) as Hle. clear H0.
      split; intros _; to_Q; [lra|]. change (/ 100)%Q with (1 # 100)%Q.
      change (inject_Z 0) with 0%Q. lra.
    + assert (¬ - x * float 100 ≤ float (1 # 2)) as Hgt.
      { intros Hle%H0. lia. }
      apply Qcnot_le_lt in Hgt. clear H0.
      assert (1 <= inject_Z z)%Q as Hq.
      { change 1%Q with (inject_Z 1). by rewrite <-Zle_Qle. }
      split; intros H; exfalso; to_Q; change (/ 100)%Q with (1 # 100)%Q in *;
        lra.
  - apply Qcnot_lt_le in Hx. clear H0.
    assert (0 <= inject_Z z)%Q as Hq.
    { change 0%Q with (inject_Z 0). by rewrite <-Zle_Qle. }
    split; intros _; to_Q; change (/ 100)%Q with (1 # 100)%Q in *; lra.
Qed.

(** The text of a performance, stripped of its percent sign, is read back
    by [float] as a number: a whole number of hundredths, within half a
    hundredth of the performance, and not of the opposite sign. *)
Theorem displayed_performance_reads_back (x : Qc) :
  ∃ v,
    py_float (strip (dashboard_usa.display_performance x) "%") = mret v
    ∧ x - float (1 # 200) ≤ v ≤ x + float (1 # 200)
    ∧ (∃ hundredths : Z, v = Z2Qc hundredths / float 100)
    ∧ (0 ≤ x → 0 ≤ v)
    ∧ (x ≤ 0 → v ≤ 0).
Proof.
  exists (rounded_2f x). unfold dashboard_usa.display_performance.
  rewrite strip_format_2f, py_float_format_2f.
  pose proof (rounded_2f_close x) as Hclose.
  split_and!; [done|apply Hclose..| | |].
  - unfold rounded_2f. case_bool_decide.
    + exists (- rint (- x * float 100))%Z.
      set (z := rint _). apply Qc_is_canon. to_Q.
      rewrite inject_Z_opp. field.
    + by eexists.
  - intros Hx. apply rounded_2f_sign.
    clear Hclose. to_Q. lra.
  - intros Hx. unfold rounded_2f.
    pose proof (rint_nonneg _ (magnitude_nonneg x)) as Hz.
    pose proof (rint_zero_iff _ (magnitude_nonneg x)) as H0.
    set (z := rint _) in *.
    assert (0 <= inject_Z z)%Q as Hq.
    { change 0%Q with (inject_Z 0). by rewrite <-Zle_Qle. }
    case_bool_decide as Hneg.
    + clearbody z. clear H0 Hclose. to_Q.
      change (/ 100)%Q with (1 # 100)%Q. lra.
    + assert (z = 0%Z) as ->.
      { apply H0. apply Qcnot_lt_le in Hneg. clear H0 Hclose Hq Hz.
        clearbody z. to_Q. lra. }
      apply Qc_le_this. vm_compute. discriminate.
Qed.

(** On the USA page a performance is coloured green exactly when it is at
    least -0.005: the colour is decided on the text of the cell, and a loss
    of up to half a hundredth of a percent is shown as [-0.00%], which
    [float] reads as zero. *)
Theorem performance_colour_threshold (rows : list holding_row) :
  dashboard_usa.styled_performance rows
  = mret ((λ row,
             (format_2f (Performance_pct row) +:+ "%",
              "color: "
              +:+ (if bool_decide (- float (1 # 200) ≤ Performance_pct row)
                   then "#1cc88a" else "#e74a3b")
              +:+ "; font-weight: bold")) <$> rows).
Proof.
  unfold dashboard_usa.styled_performance. apply for_append_pure.
  apply Forall_forall. intros row _. cbn beta zeta.
  unfold dashboard_usa.color_performance, dashboard_usa.display_performance.
  rewrite strip_format_2f, py_float_format_2f, !mret_bind.
  by rewrite (bool_decide_ext _ _ (rounded_2f_sign (Performance_pct row))).
Qed.

(** ** The sales table *)



